(** * Presentational widgets of stacktrails: a shallow embedding

    The development follows three React components of the front-end:

    - [ExpandableContent] (src/common/utils/ExpandableContent.tsx), the
      collapsible container that measures its content with a
      [ResizeObserver] and offers an expand / collapse toggle;
    - [ExpandableText] (same file), the text-only variant;
    - [LoadingComponent], the loading / empty / error switcher.

    Conventions of the embedding.

    - A JavaScript [number] prop or measurement is a [Z]: pixel heights,
      line counts and character counts are integers in every use the
      components make of them.  Comparisons of such numbers are exact; the
      one product the code forms is rounded as a double is ([JS.mul]).  An
      optional prop is an [option]; [None] is [undefined].
    - A JavaScript string is a [string]; one character stands for one
      UTF-16 code unit, so [String.length] is [.length].
    - React state is a record that every handler takes and returns.  A
      callback supplied by the hosting application acts on the state of
      that application, which is threaded explicitly.
    - CSS class names are presentation only and are not part of the views. *)

From Stdlib Require Import ZArith List String Ascii Bool Lia.
Import ListNotations.

Local Open Scope string_scope.
Local Open Scope Z_scope.

(** ** JavaScript primitives used by the components *)

Module JS.

(** [x ?? d] and the default of a destructured prop: both replace
    [undefined] by [d]. *)
Definition dflt {A : Type} (d : A) (o : option A) : A :=
  match o with
  | Some a => a
  | None => d
  end.

(** Truthiness of an optional number: [undefined] and [0] are falsy. *)
Definition truthy (o : option Z) : bool :=
  match o with
  | Some n => negb (n =? 0)
  | None => false
  end.

(** Truthiness of an optional string: [undefined] and [""] are falsy. *)
Definition truthy_str (o : option string) : bool :=
  match o with
  | Some s => negb (s =? "")%string
  | None => false
  end.

(** The double nearest to the integer [n]: an integer of more than 53
    significant bits loses its low bits, rounded to nearest with ties to
    the even significand.  (Valid below [2^1024], where doubles end.) *)
Definition toDouble (n : Z) : Z :=
  let a := Z.abs n in
  let drop := Z.log2 a - 52 in
  if drop <=? 0 then n
  else
    let q := Z.shiftr a drop in
    let r := a - Z.shiftl q drop in
    let half := Z.shiftl 1 (drop - 1) in
    let q' := if (half <? r) || ((half =? r) && Z.odd q)
              then q + 1 else q in
    Z.sgn n * Z.shiftl q' drop.

(** [a * b] on numbers: the exact product, rounded to a double. *)
Definition mul (a b : Z) : Z := toDouble (a * b).

(** [s.length] *)
Definition length (s : string) : Z := Z.of_nat (String.length s).

(** The first [n] code units of [s] (all of [s] when it is shorter). *)
Fixpoint take (n : nat) (s : string) : string :=
  match n, s with
  | O, _ => EmptyString
  | S _, EmptyString => EmptyString
  | S n', String c r => String c (take n' r)
  end.

(** [s.slice(0, e)]: a negative [e] counts from the end of [s], and the
    result is clamped to the string. *)
Definition slice0 (s : string) (e : Z) : string :=
  let len := length s in
  let stop := if e <? 0 then Z.max (len + e) 0 else Z.min e len in
  take (Z.to_nat stop) s.

(** [s.split(sep)] for a separator of one code unit. *)
Fixpoint split (sep : ascii) (s : string) : list string :=
  match s with
  | EmptyString => [EmptyString]
  | String c r =>
      if Ascii.eqb c sep then EmptyString :: split sep r
      else match split sep r with
           | [] => [String c EmptyString]
           | w :: ws => String c w :: ws
           end
  end.

(** [ws.join(sep)] *)
Fixpoint join (sep : string) (ws : list string) : string :=
  match ws with
  | [] => EmptyString
  | [w] => w
  | w :: rest => w ++ sep ++ join sep rest
  end.

(** [ws.slice(0, e)] on an array, with the same clamping. *)
Definition slice0_list {A : Type} (ws : list A) (e : Z) : list A :=
  let len := Z.of_nat (List.length ws) in
  let stop := if e <? 0 then Z.max (len + e) 0 else Z.min e len in
  firstn (Z.to_nat stop) ws.

Definition space : ascii := " "%char.

(** The whitespace code units of one byte: U+0020 and U+0009 to U+000D. *)
Definition isWhitespace (c : ascii) : bool :=
  let n := nat_of_ascii c in
  (Nat.eqb n 32 || Nat.leb 9 n && Nat.leb n 13)%bool.

(** A string of whitespace only; the empty string is one. *)
Fixpoint blank (s : string) : bool :=
  match s with
  | EmptyString => true
  | String c r => isWhitespace c && blank r
  end.

End JS.

(** ** ExpandableContent *)

Module ExpandableContent.

(** [React.ReactNode], as far as the component looks at it: either a
    string ([typeof children === "string"]) or some other node, of which
    only the [textContent] of its DOM rendering is ever read. *)
Inductive ReactNode : Type :=
| Text (s : string)
| Element (textContent : string).

Definition plainText (n : ReactNode) : string :=
  match n with
  | Text s => s
  | Element t => t
  end.

Inductive ButtonPosition : Type := center | left | right.

(** What the observer reads of [entry.target]. *)
Record Entry : Type := {
  scrollHeight : Z;
  textContent : string
}.

(** The four [useState] cells of the component. *)
Record State : Type := {
  internalExpanded : bool;
  needsExpansion : bool;
  fullContentHeight : Z;
  calculatedMaxHeight : Z
}.

(** The values the [ResizeObserver] callback closes over. *)
Record Observer : Type := {
  collapsedHeight : Z;
  observedMaxCharacters : option Z
}.

Record Button : Type := {
  label : string;
  positionClass : string
}.

(** The constrained region of the second [return]: the inline
    [maxHeight] and [transitionDuration] in px and ms, the node put under
    [contentRef], the colour of the gradient overlay when it is rendered,
    and the toggle button when it is rendered. *)
Record Region : Type := {
  maxHeightPx : Z;
  transitionDurationMs : Z;
  content : ReactNode;
  gradientOverlay : option string;
  toggleButton : option Button
}.

Inductive View : Type :=
| Direct (node : ReactNode)
| Collapsible (r : Region).

(** Readings of a view: the node shown, the height constraint, the overlay
    and the toggle button, where the view has them. *)
Definition contentOf (v : View) : ReactNode :=
  match v with
  | Direct n => n
  | Collapsible r => content r
  end.

Definition constraintOf (v : View) : option Z :=
  match v with
  | Direct _ => None
  | Collapsible r => Some (maxHeightPx r)
  end.

Definition overlayOf (v : View) : option string :=
  match v with
  | Direct _ => None
  | Collapsible r => gradientOverlay r
  end.

Definition toggleOf (v : View) : option Button :=
  match v with
  | Direct _ => None
  | Collapsible r => toggleButton r
  end.

Section Controller.

(** The state of the hosting application, on which [onToggle] acts. *)
Variable Host : Type.

Record Props : Type := {
  children : ReactNode;
  maxHeight : option Z;
  maxLines : option Z;
  lineHeight : option Z;
  maxCharacters : option Z;
  expandText : option string;
  collapseText : option string;
  showGradient : option bool;
  gradientColor : option string;
  buttonPosition : option ButtonPosition;
  controlled : option bool;
  controlledExpanded : option bool;
  onToggle : option (bool -> Host -> Host);
  animationDuration : option Z
}.

(** The defaults of the destructuring pattern. *)
Definition maxHeight' (p : Props) : Z := JS.dflt 100 (maxHeight p).
Definition lineHeight' (p : Props) : Z := JS.dflt 24 (lineHeight p).
Definition expandText' (p : Props) : string :=
  JS.dflt "Show more" (expandText p).
Definition collapseText' (p : Props) : string :=
  JS.dflt "Show less" (collapseText p).
Definition showGradient' (p : Props) : bool :=
  JS.dflt true (showGradient p).
Definition buttonPosition' (p : Props) : ButtonPosition :=
  JS.dflt center (buttonPosition p).
Definition controlled' (p : Props) : bool :=
  JS.dflt false (controlled p).
Definition animationDuration' (p : Props) : Z :=
  JS.dflt 300 (animationDuration p).

(** The state of the first render: [useState(false)], [useState(false)],
    [useState(0)] and [useState(maxHeight)]. *)
Definition initialState (p : Props) : State :=
  {| internalExpanded := false;
     needsExpansion := false;
     fullContentHeight := 0;
     calculatedMaxHeight := maxHeight' p |}.

(** [const expanded = controlled ? controlledExpanded ?? false
                                 : internalExpanded] *)
Definition expanded (p : Props) (s : State) : bool :=
  if controlled' p then JS.dflt false (controlledExpanded p)
  else internalExpanded s.

(** The local [collapsedHeight] of the effect. *)
Definition resolveCollapsedHeight (p : Props) : Z :=
  if JS.truthy (maxLines p)
  then JS.mul (lineHeight' p) (JS.dflt 0 (maxLines p))
  else maxHeight' p.

(** The body of [useEffect].  [ref] is [contentRef.current]: without a
    mounted element the effect returns at once; otherwise it stores the
    collapsed height and installs an observer. *)
Definition effect (p : Props) (ref : option string) (s : State)
  : State * option Observer :=
  match ref with
  | None => (s, None)
  | Some _ =>
      let h := resolveCollapsedHeight p in
      ({| internalExpanded := internalExpanded s;
          needsExpansion := needsExpansion s;
          fullContentHeight := fullContentHeight s;
          calculatedMaxHeight := h |},
       Some {| collapsedHeight := h;
               observedMaxCharacters := maxCharacters p |})
  end.

(** One iteration of the loop of the observer callback. *)
Definition observe (o : Observer) (s : State) (e : Entry) : State :=
  let naturalHeight := scrollHeight e in
  {| internalExpanded := internalExpanded s;
     needsExpansion :=
       if JS.truthy (observedMaxCharacters o)
       then JS.dflt 0 (observedMaxCharacters o)
            <? JS.length (textContent e)
       else collapsedHeight o <? naturalHeight;
     fullContentHeight := naturalHeight;
     calculatedMaxHeight := calculatedMaxHeight s |}.

(** The observer callback: [for (const entry of entries) ...]. *)
Definition onResize (o : Observer) (entries : list Entry) (s : State)
  : State :=
  fold_left (observe o) entries s.

(** [handleToggle], on the component state and the host state. *)
Definition handleToggle (p : Props) (s : State) (w : Host)
  : State * Host :=
  match controlled' p, onToggle p with
  | true, Some f => (s, f (negb (expanded p s)) w)
  | _, _ =>
      ({| internalExpanded := negb (expanded p s);
          needsExpansion := needsExpansion s;
          fullContentHeight := fullContentHeight s;
          calculatedMaxHeight := calculatedMaxHeight s |}, w)
  end.

(** [getTruncatedContent].  [ref] is [contentRef.current?.textContent]. *)
Definition getTruncatedContent (p : Props) (s : State)
           (ref : option string) : ReactNode :=
  if negb (JS.truthy (maxCharacters p)) || expanded p s then children p
  else
    let c := JS.dflt 0 (maxCharacters p) in
    let text :=
      match children p with
      | Text t => t
      | Element _ => JS.dflt "" ref
      end in
    if JS.length text <=? c then children p
    else Text (JS.slice0 text c ++ "...").

Definition buttonPositionClass (p : Props) : string :=
  match buttonPosition' p with
  | center => "text-center"
  | left => "text-left"
  | right => "text-right"
  end.

(** [gradientColor || theme.palette.background.default] *)
Definition defaultGradient (p : Props) (themeBackground : string)
  : string :=
  if JS.truthy_str (gradientColor p)
  then JS.dflt "" (gradientColor p)
  else themeBackground.

(** The value the component returns. *)
Definition render (p : Props) (themeBackground : string) (s : State)
           (ref : option string) : View :=
  if negb (needsExpansion s) && (0 <? fullContentHeight s)
  then Direct (children p)
  else
    Collapsible
      {| maxHeightPx :=
           if expanded p s then fullContentHeight s
           else calculatedMaxHeight s;
         transitionDurationMs := animationDuration' p;
         content := getTruncatedContent p s ref;
         gradientOverlay :=
           if showGradient' p && negb (expanded p s)
           then Some (defaultGradient p themeBackground)
           else None;
         toggleButton :=
           if needsExpansion s
           then Some {| label := if expanded p s then collapseText' p
                                 else expandText' p;
                        positionClass := buttonPositionClass p |}
           else None |}.

(** What a committed view leaves under [contentRef]: the text of the
    node rendered there, or nothing when the ref'd element is not part
    of the view. *)
Definition committedText (v : View) : option string :=
  match v with
  | Direct _ => None
  | Collapsible r => Some (plainText (content r))
  end.

(** The events of a mounted instance, and a run of them. *)
Inductive Event : Type :=
| Resize (entries : list Entry)
| Click.

Definition step (p : Props) (o : Observer) (sw : State * Host)
           (ev : Event) : State * Host :=
  match ev with
  | Resize entries => (onResize o entries (fst sw), snd sw)
  | Click => handleToggle p (fst sw) (snd sw)
  end.

Definition run (p : Props) (o : Observer) (evs : list Event)
           (sw : State * Host) : State * Host :=
  fold_left (step p o) evs sw.

(** The first measurement of a mounted instance: the effect runs with the
    ref'd element in place (its text is [dom]) and the observer it installs
    reports one entry. *)
Definition measure (p : Props) (dom : string) (s : State) (e : Entry)
  : State :=
  match effect p (Some dom) s with
  | (s1, Some o) => onResize o [e] s1
  | (s1, None) => s1
  end.

(** Props with every optional prop left out. *)
Definition defaultProps (node : ReactNode) : Props :=
  {| children := node;
     maxHeight := None; maxLines := None; lineHeight := None;
     maxCharacters := None; expandText := None; collapseText := None;
     showGradient := None; gradientColor := None; buttonPosition := None;
     controlled := None; controlledExpanded := None; onToggle := None;
     animationDuration := None |}.

(** The texts the component puts under [contentRef]: the text of
    [children], or, under an active character bound that the text exceeds,
    its truncation. *)
Definition mountedText (p : Props) (d : string) : Prop :=
  d = plainText (children p) \/
  (JS.truthy (maxCharacters p) = true /\
   JS.dflt 0 (maxCharacters p) < JS.length (plainText (children p)) /\
   d = JS.slice0 (plainText (children p)) (JS.dflt 0 (maxCharacters p))
       ++ "...").

End Controller.

Arguments children {Host}.
Arguments maxHeight {Host}.
Arguments maxLines {Host}.
Arguments lineHeight {Host}.
Arguments maxCharacters {Host}.
Arguments controlled {Host}.
Arguments controlledExpanded {Host}.
Arguments onToggle {Host}.
Arguments showGradient {Host}.
Arguments initialState {Host}.
Arguments expanded {Host}.
Arguments resolveCollapsedHeight {Host}.
Arguments effect {Host}.
Arguments handleToggle {Host}.
Arguments getTruncatedContent {Host}.
Arguments render {Host}.
Arguments step {Host}.
Arguments run {Host}.
Arguments maxHeight' {Host}.
Arguments lineHeight' {Host}.
Arguments expandText' {Host}.
Arguments collapseText' {Host}.
Arguments showGradient' {Host}.
Arguments buttonPosition' {Host}.
Arguments controlled' {Host}.
Arguments animationDuration' {Host}.
Arguments buttonPositionClass {Host}.
Arguments defaultGradient {Host}.
Arguments measure {Host}.
Arguments defaultProps {Host}.
Arguments mountedText {Host}.

End ExpandableContent.

(** ** ExpandableText *)

Module ExpandableText.

Record Props : Type := {
  text : string;
  maxCharacters : option Z;
  maxWords : option Z;
  expandText : option string;
  collapseText : option string
}.

Definition maxCharacters' (p : Props) : Z := JS.dflt 150 (maxCharacters p).
Definition expandText' (p : Props) : string :=
  JS.dflt "Read more" (expandText p).
Definition collapseText' (p : Props) : string :=
  JS.dflt "Read less" (collapseText p).

(** [getTruncatedText] *)
Definition getTruncatedText (p : Props) : string :=
  if JS.truthy (maxWords p) then
    let m := JS.dflt 0 (maxWords p) in
    let words := JS.split JS.space (text p) in
    if m <? Z.of_nat (List.length words)
    then JS.join " " (JS.slice0_list words m) ++ "..."
    else text p
  else
    if maxCharacters' p <? JS.length (text p)
    then JS.slice0 (text p) (maxCharacters' p) ++ "..."
    else text p.

(** [const needsTruncation = maxWords ? text.split(" ").length > maxWords
                                      : text.length > maxCharacters] *)
Definition needsTruncation (p : Props) : bool :=
  if JS.truthy (maxWords p)
  then JS.dflt 0 (maxWords p)
       <? Z.of_nat (List.length (JS.split JS.space (text p)))
  else maxCharacters' p <? JS.length (text p).

(** The returned element: the bare paragraph, or the paragraph with the
    shown text and the toggle button. *)
Inductive View : Type :=
| Paragraph (shown : string)
| WithToggle (shown : string) (buttonLabel : string).

(** The component, as a function of its one state cell [expanded]. *)
Definition render (p : Props) (expanded : bool) : View :=
  if negb (needsTruncation p) then Paragraph (text p)
  else WithToggle (if expanded then text p else getTruncatedText p)
                  (if expanded then collapseText' p else expandText' p).

(** The [onClick] of the button: [setExpanded(!expanded)]. *)
Definition onClick (expanded : bool) : bool := negb expanded.

(** *** The word count of the specification

    The specification counts words by splitting on whitespace.  The
    definitions below follow those words: a separator is any whitespace
    code unit, not only U+0020. *)

Fixpoint splitWhitespace (s : string) : list string :=
  match s with
  | EmptyString => [EmptyString]
  | String c r =>
      if JS.isWhitespace c then EmptyString :: splitWhitespace r
      else match splitWhitespace r with
           | [] => [String c EmptyString]
           | w :: ws => String c w :: ws
           end
  end.

Definition wordCount_whitespace (s : string) : Z :=
  Z.of_nat (List.length (splitWhitespace s)).

Definition needsTruncation_whitespace (p : Props) : bool :=
  if JS.truthy (maxWords p)
  then JS.dflt 0 (maxWords p) <? wordCount_whitespace (text p)
  else maxCharacters' p <? JS.length (text p).

(** The number of U+0020 code units of a string. *)
Fixpoint spaces (s : string) : nat :=
  match s with
  | EmptyString => O
  | String c r => if Ascii.eqb c JS.space then S (spaces r) else spaces r
  end.

End ExpandableText.

(** ** LoadingComponent *)

Module LoadingComponent.

(** The nodes the component returns: [null], a node supplied by the caller,
    the three built-in screens ([CenterOnLgScreen] around [ErrorDisplay],
    [Loading] and [Empty]) and the fragment [<>...</>]. *)
Inductive Node : Type :=
| null
| Custom (name : string)
| ErrorScreen
| LoadingScreen
| EmptyScreen
| Fragment (child : Node).

(** [a ?? b] on nodes: [undefined] and [null] both give way to [b]. *)
Definition nullish (a : option Node) (b : Node) : Node :=
  match a with
  | None => b
  | Some null => b
  | Some n => n
  end.

Section Component.

Variable T : Type.

(** [children]: absent, a render function, or a node. *)
Inductive Children : Type :=
| NoChildren
| RenderProp (f : T -> Node)
| ChildNode (n : Node).

Record Props : Type := {
  loading : bool;
  empty : option bool;
  error : option bool;
  data : option T;
  loadingComponent : option Node;
  emptyComponent : option Node;
  errorComponent : option Node;
  children : Children
}.

Definition empty' (p : Props) : bool := JS.dflt false (empty p).
Definition error' (p : Props) : bool := JS.dflt false (error p).

(** The result of a call of the component: the node returned, and the
    arguments with which the function child was called, in order. *)
Record Outcome : Type := {
  returned : Node;
  calls : list T
}.

Definition LoadingComponent (p : Props) : Outcome :=
  if error' p then
    {| returned := nullish (errorComponent p) ErrorScreen; calls := [] |}
  else if loading p then
    {| returned := nullish (loadingComponent p) LoadingScreen; calls := [] |}
  else if empty' p then
    {| returned := nullish (emptyComponent p) EmptyScreen; calls := [] |}
  else
    match children p with
    | RenderProp f =>
        match data p with
        | Some d => {| returned := Fragment (f d); calls := [d] |}
        | None => {| returned := Fragment null; calls := [] |}
        end
    | ChildNode n => {| returned := Fragment n; calls := [] |}
    | NoChildren => {| returned := Fragment null; calls := [] |}
    end.

End Component.

Arguments loading {T}.
Arguments empty {T}.
Arguments error {T}.
Arguments data {T}.
Arguments loadingComponent {T}.
Arguments emptyComponent {T}.
Arguments errorComponent {T}.
Arguments children {T}.
Arguments empty' {T}.
Arguments error' {T}.
Arguments returned {T}.
Arguments calls {T}.
Arguments RenderProp {T}.
Arguments ChildNode {T}.
Arguments NoChildren {T}.
Arguments LoadingComponent {T}.

End LoadingComponent.

(** ** Statements of the specification that the code does not satisfy

    Each definition below writes one sentence of the specification as the
    specification words it, over the embedding above.  They are compared
    with the code in the last part of the file. *)

Module Stated.

Import ExpandableContent.


(** "For all maxCharacters=c: if text length <= c, full text is shown with
    no toggle; if text length > c, collapsed display == first c characters
    + suffix, and expanded display == full text", the toggle being present
    in the second case. *)
Definition character_bound_decides : Prop :=
  forall (Host : Type) (p : Props Host) (c : Z) (theme dom d : string)
         (s : State) (e : Entry),
    maxCharacters p = Some c ->
    mountedText p (textContent e) ->
    mountedText p d ->
    let t := plainText (children p) in
    let s' := measure p dom s e in
    let v := render p theme s' (Some d) in
    (JS.length t <= c -> contentOf v = children p /\ toggleOf v = None) /\
    (c < JS.length t ->
     toggleOf v <> None /\
     contentOf v = if expanded p s' then children p
                   else Text (JS.take (Z.to_nat c) t ++ "...")).

(** "If external-ownership mode is selected but no callback is supplied,
    toggle requests are silently inert": nothing changes. *)
Definition toggle_without_callback_is_inert : Prop :=
  forall (Host : Type) (p : Props Host) (s : State) (w : Host),
    controlled p = Some true ->
    onToggle p = None ->
    handleToggle p s w = (s, w).

(** "Zero-length or whitespace-only content never triggers truncation." *)
Definition blank_content_never_truncates : Prop :=
  forall (Host : Type) (p : Props Host) (theme dom : string)
         (ref : option string) (s : State) (e : Entry),
    JS.blank (plainText (children p)) = true ->
    textContent e = plainText (children p) ->
    let s' := measure p dom s e in
    needsExpansion s' = false /\
    toggleOf (render p theme s' ref) = None /\
    contentOf (render p theme s' ref) = children p.

(** "needsTruncation = (wordBound ? wordCount(text) > wordBound
                                   : text.length > charBound)", the word
    count "splitting on whitespace". *)
Definition truncation_counts_whitespace_words : Prop :=
  forall p : ExpandableText.Props,
    ExpandableText.needsTruncation p
    = ExpandableText.needsTruncation_whitespace p.

End Stated.

(** ** Inputs of the scenarios *)

Module Scenario.

Import ExpandableContent.

(** Props from the bounds, the ownership mode and the callback; every other
    prop is left out. *)
Definition props {Host : Type} (node : ReactNode)
           (height lines lineH chars : option Z) (ctl exp : option bool)
           (cb : option (bool -> Host -> Host)) : Props Host :=
  {| children := node;
     maxHeight := height; maxLines := lines; lineHeight := lineH;
     maxCharacters := chars; expandText := None; collapseText := None;
     showGradient := None; gradientColor := None; buttonPosition := None;
     controlled := ctl; controlledExpanded := exp; onToggle := cb;
     animationDuration := None |}.

Definition entry (h : Z) (t : string) : Entry :=
  {| scrollHeight := h; textContent := t |}.

(** [{maxLines: 3, lineHeight: 24}] *)
Definition threeLines : Props unit :=
  props (Element "lorem") None (Some 3) (Some 24) None None None None.


(** [{maxHeight: 100}] *)
Definition hundredPixels : Props unit :=
  props (Element "lorem") (Some 100) None None None None None None.

(** [{maxCharacters: c}] around a string child. *)
Definition characters (c : Z) (t : string) : Props unit :=
  props (Text t) None None None (Some c) None None None.

(** A text of [n] code units. *)
Fixpoint filler (n : nat) : string :=
  match n with
  | O => EmptyString
  | S n' => String "a"%char (filler n')
  end.

(** [{maxCharacters: 200}] around a text of 500 code units. *)
Definition longText : string := filler 500.
Definition twoHundredCharacters : Props unit := characters 200 longText.

(** [{controlled: true, expanded: false}], no [onToggle]. *)
Definition controlledWithoutCallback : Props unit :=
  props (Element "lorem") None None None None (Some true) (Some false) None.

(** [{controlled: true, expanded: b, onToggle}], the host keeping the list
    of the booleans it was called with. *)
Definition controlledBy (b : bool) : Props (list bool) :=
  props (Element "lorem") None None None None (Some true) (Some b)
        (Some (fun x w => x :: w)).

(** ExpandableText over three words separated by tabs, bound to two
    words: [{text: "a\tb\tc", maxWords: 2}]. *)
Definition tab : string := String (ascii_of_nat 9) EmptyString.

Definition tabbedWords : ExpandableText.Props :=
  {| ExpandableText.text := "a" ++ tab ++ "b" ++ tab ++ "c";
     ExpandableText.maxCharacters := None;
     ExpandableText.maxWords := Some 2;
     ExpandableText.expandText := None;
     ExpandableText.collapseText := None |}.

(** LoadingComponent over a numeric datum, with a function child that
    names the datum it is given. *)
Definition switcher (isLoading isEmpty isError : bool) (datum : option nat)
  : LoadingComponent.Props nat :=
  {| LoadingComponent.loading := isLoading;
     LoadingComponent.empty := Some isEmpty;
     LoadingComponent.error := Some isError;
     LoadingComponent.data := datum;
     LoadingComponent.loadingComponent := None;
     LoadingComponent.emptyComponent := None;
     LoadingComponent.errorComponent := None;
     LoadingComponent.children :=
       LoadingComponent.RenderProp
         (fun n => LoadingComponent.Custom
                     (if Nat.eqb n 0 then "none" else "some")) |}.

End Scenario.

(** ** ExpandableContentExample: the controlled instance

    The example component keeps one state cell, [controlled1], and hands it
    to an [ExpandableContent] in the controlled mode, with its setter as
    [onToggle]; beside the component it renders a button of its own that
    negates the cell.  [controlled1] is the host state of that instance. *)

Module ExpandableContentExample.

Import ExpandableContent.

(** [useState(false)] *)
Definition initialControlled1 : bool := false.

(** [setControlled1], a state setter: the new value replaces the old. *)
Definition setControlled1 (value : bool) (controlled1 : bool) : bool :=
  value.

(** The props of the controlled instance; [text] is the text of the [div]
    given as children. *)
Definition controlledInstance (text : string) (controlled1 : bool)
  : Props bool :=
  {| children := Element text;
     maxHeight := Some 80;
     maxLines := None;
     lineHeight := None;
     maxCharacters := None;
     expandText := Some "Expand Content";
     collapseText := Some "Collapse Content";
     showGradient := None;
     gradientColor := None;
     buttonPosition := Some right;
     controlled := Some true;
     controlledExpanded := Some controlled1;
     onToggle := Some setControlled1;
     animationDuration := None |}.

(** The external button: [onClick={() => setControlled1(!controlled1)}]. *)
Definition externalToggle (controlled1 : bool) : bool :=
  setControlled1 (negb controlled1) controlled1.

(** Its label: [External Toggle ({controlled1 ? "Collapse" : "Expand"})]. *)
Definition externalLabel (controlled1 : bool) : string :=
  "External Toggle (" ++ (if controlled1 then "Collapse" else "Expand")
  ++ ")".

End ExpandableContentExample.

(** * Properties *)

(** ** Facts on the JavaScript primitives *)

Module JSFacts.

Lemma length_nonneg (s : string) : 0 <= JS.length s.
Proof. unfold JS.length. lia. Qed.

Lemma length_app (s t : string) :
  String.length (s ++ t) = (String.length s + String.length t)%nat.
Proof.
  induction s as [|c s IH]; simpl.
  - reflexivity.
  - now rewrite IH.
Qed.

Lemma take_length (n : nat) (s : string) :
  String.length (JS.take n s) = Nat.min n (String.length s).
Proof.
  revert s; induction n as [|n IH]; intros [|c s]; simpl; try reflexivity.
  now rewrite IH.
Qed.

Lemma take_all (n : nat) (s : string) :
  (String.length s <= n)%nat -> JS.take n s = s.
Proof.
  revert s; induction n as [|n IH]; intros [|c s] H; simpl in *;
    try reflexivity; try lia.
  f_equal. apply IH. lia.
Qed.

Lemma take_app (n : nat) (s t : string) :
  (n <= String.length s)%nat -> JS.take n (s ++ t) = JS.take n s.
Proof.
  revert s; induction n as [|n IH]; intros [|c s] H; simpl in *;
    try reflexivity; try lia.
  f_equal. apply IH. lia.
Qed.

(** Truncating a truncated text again gives the same prefix. *)
Lemma take_take_app (n : nat) (s t : string) :
  (n <= String.length s)%nat ->
  JS.take n (JS.take n s ++ t) = JS.take n s.
Proof.
  intro H. rewrite take_app.
  - apply take_all. rewrite take_length. lia.
  - rewrite take_length. lia.
Qed.

(** For a bound that is not negative, [slice(0, c)] is the first [c] code
    units. *)
Lemma slice0_take (s : string) (c : Z) :
  0 <= c -> JS.slice0 s c = JS.take (Z.to_nat c) s.
Proof.
  intro Hc. unfold JS.slice0, JS.length.
  destruct (Z.ltb_spec c 0) as [Hneg|_]; [lia|].
  destruct (Z.le_gt_cases c (Z.of_nat (String.length s))) as [Hle|Hgt].
  - now rewrite Z.min_l by lia.
  - rewrite Z.min_r by lia. rewrite Nat2Z.id.
    rewrite !take_all; try reflexivity; lia.
Qed.

Lemma slice0_length (s : string) (c : Z) :
  0 <= c <= JS.length s -> JS.length (JS.slice0 s c) = c.
Proof.
  intros [H0 Hc]. rewrite slice0_take by assumption.
  unfold JS.length in *. rewrite take_length. lia.
Qed.

(** The truncation of a text longer than [c] is itself longer than [c]. *)
Lemma truncation_longer (s : string) (c : Z) :
  0 <= c -> c < JS.length s -> c < JS.length (JS.slice0 s c ++ "...").
Proof.
  intros H0 Hc.
  assert (Hl : JS.length (JS.slice0 s c) = c) by (apply slice0_length; lia).
  unfold JS.length in *. rewrite length_app. simpl. lia.
Qed.

(** Truncating the truncation again changes nothing. *)
Lemma truncation_stable (s : string) (c : Z) :
  0 <= c -> c < JS.length s ->
  JS.slice0 (JS.slice0 s c ++ "...") c = JS.slice0 s c.
Proof.
  intros H0 Hc. rewrite !slice0_take by assumption.
  apply take_take_app. unfold JS.length in Hc. lia.
Qed.


(** Rounding keeps a positive integer positive. *)
Lemma toDouble_pos (n : Z) : 0 < n -> 0 < JS.toDouble n.
Proof.
  intro Hn. unfold JS.toDouble. rewrite (Z.abs_eq n) by lia.
  destruct (Z.leb_spec (Z.log2 n - 52) 0) as [_|Hdrop]; [assumption|].
  set (drop := Z.log2 n - 52) in *.
  rewrite (Z.sgn_pos n) by assumption. rewrite Z.mul_1_l.
  assert (Hq : 0 < Z.shiftr n drop).
  { rewrite Z.shiftr_div_pow2 by lia.
    apply Z.div_str_pos. split; [apply Z.pow_pos_nonneg; lia|].
    apply Z.le_trans with (2 ^ Z.log2 n).
    - apply Z.pow_le_mono_r; unfold drop; lia.
    - apply (Z.log2_spec n Hn). }
  assert (Hshift : forall x, 0 < x -> 0 < Z.shiftl x drop).
  { intros x Hx. rewrite Z.shiftl_mul_pow2 by lia.
    apply Z.mul_pos_pos; [assumption|apply Z.pow_pos_nonneg; lia]. }
  destruct ((_ <? _) || _); apply Hshift; lia.
Qed.


(** [split] never returns the empty array. *)
Lemma split_nonempty (sep : ascii) (s : string) : JS.split sep s <> [].
Proof.
  destruct s as [|c s]; simpl; [discriminate|].
  destruct (Ascii.eqb c sep); [discriminate|].
  destruct (JS.split sep s); discriminate.
Qed.

End JSFacts.

(** ** ExpandableContent: the collapsed bound, measurement and rendering *)

Module ContentProofs.

Import ExpandableContent.

Section WithHost.

Context {Host : Type}.
Implicit Types (p : Props Host) (s : State) (e : Entry) (o : Observer).

(** *** What a measurement leaves in the state *)

Lemma measure_unfold p dom s e :
  measure p dom s e
  = observe {| collapsedHeight := resolveCollapsedHeight p;
               observedMaxCharacters := maxCharacters p |}
            {| internalExpanded := internalExpanded s;
               needsExpansion := needsExpansion s;
               fullContentHeight := fullContentHeight s;
               calculatedMaxHeight := resolveCollapsedHeight p |}
            e.
Proof. reflexivity. Qed.

Lemma measure_height p dom s e :
  fullContentHeight (measure p dom s e) = scrollHeight e.
Proof. reflexivity. Qed.

Lemma measure_bound p dom s e :
  calculatedMaxHeight (measure p dom s e) = resolveCollapsedHeight p.
Proof. reflexivity. Qed.

Lemma measure_internal p dom s e :
  internalExpanded (measure p dom s e) = internalExpanded s.
Proof. reflexivity. Qed.

Lemma measure_expanded p dom s e :
  expanded p (measure p dom s e) = expanded p s.
Proof. unfold expanded. now rewrite measure_internal. Qed.

(** Without an active character bound the heights are compared. *)
Lemma measure_by_height p dom s e :
  JS.truthy (maxCharacters p) = false ->
  needsExpansion (measure p dom s e)
  = (resolveCollapsedHeight p <? scrollHeight e).
Proof.
  intro H. rewrite measure_unfold. unfold observe. simpl. now rewrite H.
Qed.

(** With an active character bound the text lengths are compared. *)
Lemma measure_by_characters p dom s e :
  JS.truthy (maxCharacters p) = true ->
  needsExpansion (measure p dom s e)
  = (JS.dflt 0 (maxCharacters p) <? JS.length (textContent e)).
Proof.
  intro H. rewrite measure_unfold. unfold observe. simpl. now rewrite H.
Qed.

(** *** The two branches of [render] *)

Lemma render_direct p theme s ref :
  needsExpansion s = false -> 0 < fullContentHeight s ->
  render p theme s ref = Direct (children p).
Proof.
  intros Hn Hh. unfold render. rewrite Hn.
  destruct (Z.ltb_spec 0 (fullContentHeight s)); [reflexivity|lia].
Qed.

Lemma render_constraint p theme s ref :
  needsExpansion s = true ->
  constraintOf (render p theme s ref)
  = Some (if expanded p s then fullContentHeight s
          else calculatedMaxHeight s).
Proof. intro Hn. unfold render. now rewrite Hn. Qed.

Lemma render_toggle p theme s ref :
  toggleOf (render p theme s ref)
  = if needsExpansion s
    then Some {| label := if expanded p s then collapseText' p
                          else expandText' p;
                 positionClass := buttonPositionClass p |}
    else None.
Proof.
  unfold render. destruct (needsExpansion s); simpl; [reflexivity|].
  now destruct (0 <? fullContentHeight s).
Qed.

(** A state with the height still at its initial [0] is rendered in the
    constrained region, never directly. *)
Lemma render_unmeasured p theme s ref :
  fullContentHeight s = 0 ->
  render p theme s ref
  = Collapsible
      {| maxHeightPx := if expanded p s then 0 else calculatedMaxHeight s;
         transitionDurationMs := animationDuration' p;
         content := getTruncatedContent p s ref;
         gradientOverlay :=
           if showGradient' p && negb (expanded p s)
           then Some (defaultGradient p theme) else None;
         toggleButton :=
           if needsExpansion s
           then Some {| label := if expanded p s then collapseText' p
                                 else expandText' p;
                        positionClass := buttonPositionClass p |}
           else None |}.
Proof.
  intro H0. unfold render. rewrite H0. simpl.
  now rewrite andb_false_r.
Qed.

(** [getTruncatedContent] without an active character bound. *)
Lemma content_without_character_bound p s ref :
  JS.truthy (maxCharacters p) = false ->
  getTruncatedContent p s ref = children p.
Proof. intro H. unfold getTruncatedContent. now rewrite H. Qed.

(** *** The toggle *)

Lemma toggle_uncontrolled p s (w : Host) :
  controlled' p = false ->
  expanded p (fst (handleToggle p s w)) = negb (expanded p s)
  /\ needsExpansion (fst (handleToggle p s w)) = needsExpansion s
  /\ fullContentHeight (fst (handleToggle p s w)) = fullContentHeight s
  /\ calculatedMaxHeight (fst (handleToggle p s w)) = calculatedMaxHeight s
  /\ snd (handleToggle p s w) = w.
Proof.
  intro Hc. unfold handleToggle, expanded. rewrite Hc. simpl. auto.
Qed.

Lemma observe_internal o s e :
  internalExpanded (observe o s e) = internalExpanded s.
Proof. reflexivity. Qed.

Lemma onResize_internal o entries s :
  internalExpanded (onResize o entries s) = internalExpanded s.
Proof.
  unfold onResize. revert s.
  induction entries as [|e es IH]; intro s; simpl; [reflexivity|].
  now rewrite IH, observe_internal.
Qed.

End WithHost.

(** *** The resolved collapsed bound *)




(** *** Content taller than the bound *)

(** C1.  In the height comparison, that is when no character bound is
    active, every measurement of a natural height above the resolved
    collapsed bound sets [needsExpansion]; the content is then rendered
    whole in the constrained region with the toggle button, the maximum
    height of the region is the resolved bound while collapsed and the
    natural height while expanded, and in the uncontrolled mode a toggle
    switches between the two. *)
Theorem taller_content_collapses_to_bound {Host : Type} (p : Props Host)
        (theme dom : string) (ref : option string) (s : State) (e : Entry)
        (w : Host) :
  JS.truthy (maxCharacters p) = false ->
  resolveCollapsedHeight p < scrollHeight e ->
  let s' := measure p dom s e in
  let toggled := fst (handleToggle p s' w) in
  needsExpansion s' = true
  /\ toggleOf (render p theme s' ref) <> None
  /\ contentOf (render p theme s' ref) = children p
  /\ constraintOf (render p theme s' ref)
     = Some (if expanded p s' then scrollHeight e
             else resolveCollapsedHeight p)
  /\ (controlled' p = false ->
      constraintOf (render p theme toggled ref)
      = Some (if expanded p s' then resolveCollapsedHeight p
              else scrollHeight e)).
Proof.
  intros Hc Hh s' toggled.
  assert (Hn : needsExpansion s' = true).
  { unfold s'. rewrite measure_by_height by assumption.
    apply Z.ltb_lt. assumption. }
  split; [exact Hn|]. split; [|split; [|split]].
  - rewrite render_toggle, Hn. discriminate.
  - unfold render. rewrite Hn. simpl.
    now apply content_without_character_bound.
  - rewrite render_constraint by assumption. reflexivity.
  - intro Hu.
    destruct (toggle_uncontrolled p s' w Hu) as (He & Hn' & Hf & Hm & _).
    fold toggled in He, Hn', Hf, Hm.
    rewrite render_constraint by congruence.
    rewrite He, Hf, Hm. unfold s' at 2 3.
    rewrite measure_height, measure_bound.
    now destruct (expanded p s').
Qed.

Lemma taller_content_collapses_to_bound_witness :
  let p := Scenario.threeLines in
  let s' := measure p "lorem" (initialState p) (Scenario.entry 140 "lorem") in
  needsExpansion s' = true
  /\ constraintOf (render p "#fff" s' (Some "lorem")) = Some 72
  /\ constraintOf (render p "#fff" (fst (handleToggle p s' tt))
                          (Some "lorem")) = Some 140.
Proof.
  pose proof (taller_content_collapses_to_bound
                Scenario.threeLines "#fff" "lorem" (Some "lorem")
                (initialState Scenario.threeLines)
                (Scenario.entry 140 "lorem") tt eq_refl eq_refl)
    as (Hn & _ & _ & Hc & Ht).
  split; [exact Hn|]. split; [exact Hc|]. exact (Ht eq_refl).
Defined.

(** *** Content that fits *)

(** In the height comparison a measured natural height that is positive
    and at most the resolved collapsed bound clears [needsExpansion] and
    the component returns the children directly: no height constraint, no
    overlay, no toggle. *)
Theorem fitting_content_renders_directly {Host : Type} (p : Props Host)
        (theme dom : string) (ref : option string) (s : State) (e : Entry) :
  JS.truthy (maxCharacters p) = false ->
  0 < scrollHeight e ->
  scrollHeight e <= resolveCollapsedHeight p ->
  let v := render p theme (measure p dom s e) ref in
  needsExpansion (measure p dom s e) = false
  /\ v = Direct (children p)
  /\ constraintOf v = None /\ overlayOf v = None /\ toggleOf v = None.
Proof.
  intros Hc H0 Hle v.
  assert (Hn : needsExpansion (measure p dom s e) = false).
  { rewrite measure_by_height by assumption. apply Z.ltb_ge. assumption. }
  assert (Hv : v = Direct (children p)).
  { apply render_direct; [assumption|]. now rewrite measure_height. }
  rewrite Hv. repeat split; assumption.
Qed.

Lemma fitting_content_renders_directly_witness :
  render Scenario.hundredPixels "#fff"
         (measure Scenario.hundredPixels "lorem"
                  (initialState Scenario.hundredPixels)
                  (Scenario.entry 80 "lorem"))
         (Some "lorem")
  = Direct (Element "lorem").
Proof.
  assert (Hle : 80 <= 100) by (intro Hgt; discriminate Hgt).
  exact (proj1 (proj2 (fitting_content_renders_directly
                         Scenario.hundredPixels "#fff" "lorem" (Some "lorem")
                         (initialState Scenario.hundredPixels)
                         (Scenario.entry 80 "lorem") eq_refl eq_refl Hle))).
Defined.

(** *** Before the first measurement *)

(** C4.  On the first render, before any measurement ([fullContentHeight]
    is the initial [0] and [needsExpansion] is [false]), the guard
    [!needsExpansion && fullContentHeight > 0] fails and the component
    returns the constrained region: with the default props the content is
    clipped to 100px and lies under the gradient overlay, only the toggle
    button is absent.  The collapsed presentation is thus shown before the
    measurement completes. *)
Theorem first_render_is_collapsed {Host : Type} (node : ReactNode)
        (theme : string) :
  fullContentHeight (initialState (@defaultProps Host node)) = 0
  /\ render (@defaultProps Host node) theme
            (initialState (@defaultProps Host node)) None
     = Collapsible {| maxHeightPx := 100;
                      transitionDurationMs := 300;
                      content := node;
                      gradientOverlay := Some theme;
                      toggleButton := None |}.
Proof. split; reflexivity. Qed.

(** C3.  A measured natural height of [0] is within every bound that is
    not negative, yet the content is not rendered directly: the guard
    [!needsExpansion && fullContentHeight > 0] reads the height [0] as
    "not measured" and the component returns the constrained region, with
    the default props clipped to 100px and under the gradient overlay.
    The same happens to content that was rendered directly before, when a
    later notification reports the height [0]. *)
Theorem zero_height_stays_constrained {Host : Type} (node : ReactNode)
        (theme dom text : string) (ref : option string) :
  let p := @defaultProps Host node in
  let region := Collapsible {| maxHeightPx := 100;
                               transitionDurationMs := 300;
                               content := node;
                               gradientOverlay := Some theme;
                               toggleButton := None |} in
  let measured := measure p dom (initialState p) (Scenario.entry 0 text) in
  let fitted := measure p dom (initialState p) (Scenario.entry 80 text) in
  scrollHeight (Scenario.entry 0 text) <= resolveCollapsedHeight p
  /\ needsExpansion measured = false
  /\ render p theme measured ref = region
  /\ render p theme fitted ref = Direct node
  /\ render p theme
            (onResize {| collapsedHeight := resolveCollapsedHeight p;
                         observedMaxCharacters := maxCharacters p |}
                      [Scenario.entry 0 text] fitted)
            ref
     = region.
Proof.
  simpl. repeat split. intro H. discriminate H.
Qed.

(** *** The toggle under external ownership *)

(** C5, as the specification states it, fails: without a callback
    [handleToggle] takes its [else] branch and writes [internalExpanded]. *)
Lemma toggle_without_callback_is_inert_fails :
  ~ Stated.toggle_without_callback_is_inert.
Proof.
  intro H.
  pose proof (H unit Scenario.controlledWithoutCallback
                (initialState Scenario.controlledWithoutCallback) tt
                eq_refl eq_refl) as Heq.
  discriminate Heq.
Qed.

(** C5, amended.  In the controlled mode without [onToggle] a toggle
    request calls nothing and leaves the host, the displayed [expanded]
    flag and the rendered view as they were; of the state of the controller
    it writes [internalExpanded], which becomes the negation of the boolean
    supplied from outside, and nothing else. *)
Theorem toggle_without_callback_is_invisible {Host : Type} (p : Props Host)
        (s : State) (w : Host) :
  controlled p = Some true ->
  onToggle p = None ->
  let s' := fst (handleToggle p s w) in
  snd (handleToggle p s w) = w
  /\ internalExpanded s' = negb (JS.dflt false (controlledExpanded p))
  /\ needsExpansion s' = needsExpansion s
  /\ fullContentHeight s' = fullContentHeight s
  /\ calculatedMaxHeight s' = calculatedMaxHeight s
  /\ expanded p s' = expanded p s
  /\ forall theme ref, render p theme s' ref = render p theme s ref.
Proof.
  intros Hc Hcb s'.
  assert (Ht : handleToggle p s w
               = ({| internalExpanded :=
                       negb (JS.dflt false (controlledExpanded p));
                     needsExpansion := needsExpansion s;
                     fullContentHeight := fullContentHeight s;
                     calculatedMaxHeight := calculatedMaxHeight s |}, w)).
  { unfold handleToggle, expanded, controlled'. rewrite Hc, Hcb. reflexivity. }
  assert (He : forall s1 s2, expanded p s1 = expanded p s2).
  { intros s1 s2. unfold expanded, controlled'. now rewrite Hc. }
  unfold s'. rewrite Ht. simpl. repeat split.
  - apply He.
  - intros theme ref. unfold render, getTruncatedContent. simpl.
    now rewrite (He _ s).
Qed.

Lemma toggle_without_callback_is_invisible_witness :
  let p := Scenario.controlledWithoutCallback in
  internalExpanded (fst (handleToggle p (initialState p) tt)) = true
  /\ render p "#fff" (fst (handleToggle p (initialState p) tt)) None
     = render p "#fff" (initialState p) None.
Proof.
  pose proof (toggle_without_callback_is_invisible
                Scenario.controlledWithoutCallback
                (initialState Scenario.controlledWithoutCallback) tt
                eq_refl eq_refl)
    as (_ & Hi & _ & _ & _ & _ & Hr).
  split; [exact Hi | exact (Hr "#fff" None)].
Defined.

(** C6.  In the controlled mode with the boolean [b] and the callback
    [onToggle] supplied, a toggle request leaves the state of the
    controller untouched and calls [onToggle] once, with [negb b]; the
    [expanded] flag the component displays is [b] whatever the state; and
    along every run of resize notifications and clicks [internalExpanded]
    keeps the value it had, so the controller holds no copy of the flag. *)
Theorem controlled_toggle_only_calls_back {Host : Type} (p : Props Host)
        (b : bool) (onToggle' : bool -> Host -> Host) :
  controlled p = Some true ->
  controlledExpanded p = Some b ->
  onToggle p = Some onToggle' ->
  (forall s w, handleToggle p s w = (s, onToggle' (negb b) w))
  /\ (forall s, expanded p s = b)
  /\ (forall o evs s w,
         internalExpanded (fst (run p o evs (s, w))) = internalExpanded s).
Proof.
  intros Hc Hb Hcb.
  assert (He : forall s, expanded p s = b).
  { intro s. unfold expanded, controlled'. now rewrite Hc, Hb. }
  assert (Ht : forall s w, handleToggle p s w = (s, onToggle' (negb b) w)).
  { intros s w. unfold handleToggle, controlled'.
    rewrite Hc, Hcb. simpl. now rewrite He. }
  split; [exact Ht|]. split; [exact He|].
  intros o evs. unfold run.
  induction evs as [|ev evs IH]; intros s w; simpl; [reflexivity|].
  destruct ev as [entries|]; simpl.
  - rewrite IH. apply onResize_internal.
  - rewrite Ht. apply IH.
Qed.

Lemma controlled_toggle_only_calls_back_witness :
  let p := Scenario.controlledBy false in
  handleToggle p (initialState p) [] = (initialState p, [true])
  /\ internalExpanded
       (fst (run p {| collapsedHeight := 100; observedMaxCharacters := None |}
                 [Resize [Scenario.entry 140 "lorem"]; Click; Click]
                 (initialState p, [])))
     = false.
Proof.
  pose proof (controlled_toggle_only_calls_back
                (Scenario.controlledBy false) false (fun x w => x :: w)
                eq_refl eq_refl eq_refl) as (Ht & _ & Hr).
  split.
  - exact (Ht (initialState (Scenario.controlledBy false)) []).
  - exact (Hr {| collapsedHeight := 100; observedMaxCharacters := None |}
              [Resize [Scenario.entry 140 "lorem"]; Click; Click]
              (initialState (Scenario.controlledBy false)) []).
Defined.

(** *** The character bound *)

Section CharacterBound.

Context {Host : Type}.
Variables (p : Props Host) (c : Z).
Hypothesis bound : maxCharacters p = Some c.
Hypothesis positive : 0 < c.

Let t : string := plainText (children p).

Lemma bound_active : JS.truthy (maxCharacters p) = true.
Proof.
  rewrite bound. simpl. destruct (Z.eqb_spec c 0); [lia|reflexivity].
Qed.

Lemma bound_value : JS.dflt 0 (maxCharacters p) = c.
Proof. now rewrite bound. Qed.

(** Every text the component mounts is longer than the bound exactly when
    the text of the children is. *)
Lemma mounted_text_exceeds (d : string) :
  mountedText p d -> (c <? JS.length d) = (c <? JS.length t).
Proof.
  intros [->|(_ & Hlt & ->)]; [reflexivity|].
  rewrite bound_value in *. fold t in Hlt |- *.
  transitivity true; [|symmetry]; apply Z.ltb_lt; [|assumption].
  apply JSFacts.truncation_longer; lia.
Qed.

(** The text [getTruncatedContent] looks at, once an element is mounted. *)
Lemma collapsed_content (s : State) (d : string) :
  mountedText p d ->
  expanded p s = false ->
  getTruncatedContent p s (Some d)
  = if JS.length t <=? c then children p
    else Text (JS.take (Z.to_nat c) t ++ "...").
Proof.
  intros Hd He. unfold getTruncatedContent.
  rewrite bound_active, He, bound_value. simpl.
  set (text := match children p with
               | Text x => x
               | Element _ => d
               end).
  assert (Hcase : text = t \/
                  (c < JS.length t /\ text = JS.slice0 t c ++ "...")).
  { pose proof bound_value as Hv. unfold mountedText in Hd.
    rewrite Hv in Hd. unfold text, t. clear text.
    destruct (children p) as [x|x]; simpl in *; [left; reflexivity|].
    destruct Hd as [->|(_ & Hlt & ->)]; [left; reflexivity|].
    right. split; [exact Hlt|reflexivity]. }
  destruct Hcase as [->|(Hlt & ->)].
  - destruct (Z.leb_spec (JS.length t) c); [reflexivity|].
    now rewrite JSFacts.slice0_take by lia.
  - pose proof (JSFacts.truncation_longer t c) as Hlong.
    destruct (Z.leb_spec (JS.length (JS.slice0 t c ++ "...")) c); [lia|].
    destruct (Z.leb_spec (JS.length t) c); [lia|].
    rewrite JSFacts.truncation_stable by lia.
    now rewrite JSFacts.slice0_take by lia.
Qed.

(** What a committed view leaves under [contentRef] is again the text of
    the children or its truncation. *)
Lemma committed_text_mounted (theme : string) (s : State)
      (ref : option string) (d' : string) :
  (forall d, ref = Some d -> mountedText p d) ->
  committedText (render p theme s ref) = Some d' ->
  mountedText p d'.
Proof.
  intros Href. unfold render.
  destruct (negb (needsExpansion s) && (0 <? fullContentHeight s));
    simpl; [discriminate|].
  intro H; injection H as <-.
  unfold getTruncatedContent. rewrite bound_active, bound_value. simpl.
  destruct (expanded p s); [left; reflexivity|].
  set (text := match children p with
               | Text x => x
               | Element _ => JS.dflt "" ref
               end).
  destruct (Z.leb_spec (JS.length text) c) as [Hle|Hgt];
    [left; reflexivity|].
  assert (Hcase : text = t \/
                  (c < JS.length t /\ text = JS.slice0 t c ++ "...")).
  { unfold text, t in *. clear text.
    destruct (children p) as [x|x] eqn:Hch; simpl in *;
      [left; reflexivity|].
    destruct ref as [d|]; simpl in *.
    - destruct (Href d eq_refl) as [Hd|(_ & Hlt & Hd)];
        rewrite Hch in *; simpl in *; [left; exact Hd|].
      rewrite bound_value in *. right. split; [exact Hlt|exact Hd].
    - unfold JS.length in Hgt. simpl in Hgt. lia. }
  simpl. right. rewrite bound_active, bound_value. fold t.
  destruct Hcase as [Ht|(Hlt & Ht)]; rewrite Ht in *.
  - repeat split. assumption.
  - repeat split; [assumption|].
    now rewrite JSFacts.truncation_stable by lia.
Qed.

End CharacterBound.

(** C2, as the specification states it, fails: a bound of [0] is set but
    falsy, so the heights are compared and nothing is truncated. *)
Lemma character_bound_decides_fails :
  ~ Stated.character_bound_decides.
Proof.
  intro H.
  pose proof (H unit (Scenario.characters 0 "hello") 0 "#fff" "hello"
                "hello" (initialState (Scenario.characters 0 "hello"))
                (Scenario.entry 20 "hello") eq_refl
                (or_introl eq_refl) (or_introl eq_refl)) as [_ Hlong].
  destruct (Hlong eq_refl) as [Htoggle _].
  apply Htoggle. reflexivity.
Qed.

(** C2, amended.  For every configuration with [maxCharacters = c] and
    [c > 0] the observer compares the length of the text with [c], not the
    heights.  When the text of the children is at most [c] long the
    children are shown whole and no toggle is rendered; when it is longer
    the toggle is rendered, the collapsed view shows the first [c]
    characters of the text followed by ["..."], and the expanded view
    shows the children whole. *)
Theorem positive_character_bound_decides {Host : Type} (p : Props Host)
        (c : Z) (theme dom d : string) (s : State) (e : Entry) :
  maxCharacters p = Some c ->
  0 < c ->
  mountedText p (textContent e) ->
  mountedText p d ->
  let t := plainText (children p) in
  let s' := measure p dom s e in
  let v := render p theme s' (Some d) in
  needsExpansion s' = (c <? JS.length t)
  /\ (JS.length t <= c -> contentOf v = children p /\ toggleOf v = None)
  /\ (c < JS.length t ->
      toggleOf v <> None
      /\ contentOf v = if expanded p s' then children p
                       else Text (JS.take (Z.to_nat c) t ++ "...")).
Proof.
  intros Hb Hc He Hd t s' v.
  assert (Hn : needsExpansion s' = (c <? JS.length t)).
  { unfold s'. rewrite measure_by_characters by (eapply bound_active; eauto).
    rewrite (bound_value p c Hb). now apply mounted_text_exceeds. }
  split; [exact Hn|]. split.
  - intro Hle.
    assert (Hn' : needsExpansion s' = false)
      by (rewrite Hn; apply Z.ltb_ge; exact Hle).
    split; [|unfold v; now rewrite render_toggle, Hn'].
    unfold v, render. rewrite Hn'. simpl.
    destruct (0 <? scrollHeight e); simpl; [reflexivity|].
    destruct (expanded p s') eqn:Hx.
    + unfold getTruncatedContent. rewrite Hx. now rewrite orb_true_r.
    + rewrite (collapsed_content p c Hb Hc s' d Hd Hx).
      fold t. destruct (Z.leb_spec (JS.length t) c); [reflexivity|lia].
  - intro Hgt.
    assert (Hn' : needsExpansion s' = true)
      by (rewrite Hn; apply Z.ltb_lt; exact Hgt).
    split; [unfold v; rewrite render_toggle, Hn'; discriminate|].
    unfold v, render. rewrite Hn'. simpl.
    destruct (expanded p s') eqn:Hx.
    + unfold getTruncatedContent. rewrite Hx. now rewrite orb_true_r.
    + rewrite (collapsed_content p c Hb Hc s' d Hd Hx).
      fold t. destruct (Z.leb_spec (JS.length t) c); [lia|reflexivity].
Qed.

Lemma positive_character_bound_decides_witness :
  let p := Scenario.twoHundredCharacters in
  let s' := measure p "" (initialState p)
                    (Scenario.entry 300 Scenario.longText) in
  let v := render p "#fff" s' (Some Scenario.longText) in
  toggleOf v <> None
  /\ contentOf v = Text (JS.take 200 Scenario.longText ++ "...")
  /\ contentOf (render p "#fff" (fst (handleToggle p s' tt))
                       (Some Scenario.longText))
     = Text Scenario.longText.
Proof.
  pose proof (positive_character_bound_decides
                Scenario.twoHundredCharacters 200 "#fff" ""
                Scenario.longText
                (initialState Scenario.twoHundredCharacters)
                (Scenario.entry 300 Scenario.longText)
                eq_refl eq_refl (or_introl eq_refl) (or_introl eq_refl))
    as (_ & _ & Hlong).
  destruct (Hlong eq_refl) as [Htoggle Hcontent].
  split; [exact Htoggle|]. split; [exact Hcontent|reflexivity].
Defined.

(** *** Empty and blank content *)

(** C9, as the specification states it, fails: blank text is counted like
    any other text, so five spaces under a bound of three characters are
    truncated. *)
Lemma blank_content_never_truncates_fails :
  ~ Stated.blank_content_never_truncates.
Proof.
  intro H.
  destruct (H unit (Scenario.characters 3 "     ") "#fff" "     "
              (Some "     ") (initialState (Scenario.characters 3 "     "))
              (Scenario.entry 20 "     ") eq_refl eq_refl) as [Hn _].
  discriminate Hn.
Qed.

(** C9, amended.  Content whose text is empty never triggers truncation
    under a positive character bound, whatever its height; and under a
    height or line bound that is not negative, content of natural height
    [0] does not trigger it either.  In both cases [needsExpansion] is
    cleared, no toggle is rendered and the children are shown as they
    are. *)
Theorem empty_content_never_truncates {Host : Type} (p : Props Host)
        (theme dom : string) (ref : option string) (s : State) (e : Entry) :
  plainText (children p) = "" ->
  textContent e = "" ->
  ref = None \/ ref = Some "" ->
  (JS.truthy (maxCharacters p) = true /\ 0 < JS.dflt 0 (maxCharacters p))
  \/ (JS.truthy (maxCharacters p) = false
      /\ scrollHeight e = 0 /\ 0 <= resolveCollapsedHeight p) ->
  let s' := measure p dom s e in
  needsExpansion s' = false
  /\ toggleOf (render p theme s' ref) = None
  /\ contentOf (render p theme s' ref) = children p.
Proof.
  intros Ht He Href Hmode s'.
  assert (Hn : needsExpansion s' = false).
  { unfold s'. destruct Hmode as [(Hc & Hpos)|(Hc & Hh & Hb)].
    - rewrite measure_by_characters by assumption. rewrite He.
      apply Z.ltb_ge. unfold JS.length. simpl. lia.
    - rewrite measure_by_height by assumption. apply Z.ltb_ge. lia. }
  split; [exact Hn|]. split; [now rewrite render_toggle, Hn|].
  unfold render. rewrite Hn. simpl.
  destruct (0 <? scrollHeight e); simpl; [reflexivity|].
  unfold getTruncatedContent.
  destruct Hmode as [(Hc & Hpos)|(Hc & _)]; rewrite Hc; simpl;
    [|reflexivity].
  destruct (expanded p s'); [reflexivity|].
  assert (Hlen : JS.length match children p with
                           | Text x => x
                           | Element _ => JS.dflt "" ref
                           end = 0).
  { destruct (children p) as [x|x]; simpl in Ht.
    - now rewrite Ht.
    - destruct Href as [->| ->]; reflexivity. }
  rewrite Hlen.
  destruct (Z.leb_spec 0 (JS.dflt 0 (maxCharacters p))); [reflexivity|lia].
Qed.

Lemma empty_content_never_truncates_witness :
  let p := Scenario.characters 200 "" in
  let s' := measure p "" (initialState p) (Scenario.entry 0 "") in
  needsExpansion s' = false
  /\ toggleOf (render p "#fff" s' (Some "")) = None
  /\ contentOf (render p "#fff" s' (Some "")) = Text "".
Proof.
  exact (empty_content_never_truncates
           (Scenario.characters 200 "") "#fff" "" (Some "")
           (initialState (Scenario.characters 200 ""))
           (Scenario.entry 0 "") eq_refl eq_refl (or_intror eq_refl)
           (or_introl (conj eq_refl eq_refl))).
Defined.

End ContentProofs.

(** ** ExpandableText: the truncation decision *)

Module TextProofs.

Import ExpandableText.

(** [text.split(" ")] has one element more than the text has spaces. *)
Lemma split_space_length (s : string) :
  List.length (JS.split JS.space s) = S (spaces s).
Proof.
  induction s as [|c s IH]; simpl; [reflexivity|].
  destruct (Ascii.eqb c JS.space); simpl.
  - now rewrite IH.
  - destruct (JS.split JS.space s) as [|w ws] eqn:Hs; simpl in *.
    + discriminate IH.
    + exact IH.
Qed.

(** C7, as the specification states it, fails: the code splits on the
    space U+0020 only, so three words separated by tabs count as one word
    and are not truncated under a bound of two words. *)
Lemma truncation_counts_whitespace_words_fails :
  ~ Stated.truncation_counts_whitespace_words.
Proof.
  intro H. specialize (H Scenario.tabbedWords). discriminate H.
Qed.

(** C7, amended.  The truncation decision is a function of the text and
    the bounds alone: under a word bound other than [0] it compares the
    bound with the number of pieces [text.split(" ")] gives, which is the
    number of U+0020 code units of the text plus one; otherwise it compares
    the character bound (150 by default) with the length of the text.  The
    word bound takes precedence.  When the decision is negative the text
    is rendered whole without a toggle, in both states of [expanded]. *)
Theorem truncation_counts_space_separated_words (p : Props) :
  needsTruncation p
  = (if JS.truthy (maxWords p)
     then JS.dflt 0 (maxWords p) <? Z.of_nat (spaces (text p)) + 1
     else JS.dflt 150 (maxCharacters p) <? JS.length (text p))
  /\ forall expanded : bool,
      render p expanded
      = if needsTruncation p
        then WithToggle (if expanded then text p else getTruncatedText p)
                        (if expanded then collapseText' p
                         else expandText' p)
        else Paragraph (text p).
Proof.
  split.
  - unfold needsTruncation. rewrite split_space_length.
    destruct (JS.truthy (maxWords p)); [|reflexivity].
    f_equal. lia.
  - intro expanded. unfold render.
    now destruct (needsTruncation p).
Qed.

End TextProofs.

(** ** LoadingComponent: the order of the branches *)

Module LoadingProofs.

Import LoadingComponent.

(** C10.  [LoadingComponent] picks its branch in the order error, loading,
    empty, content: with [error] set it returns the error screen whatever
    [loading], [empty] and [data] are; else with [loading] set the loading
    screen; else with [empty] set the empty screen; else the children.  A
    function child is called only in the last branch and only with the
    [data] that is defined: it is called at most once, never without
    [data], and then [null] is rendered in its place. *)
Theorem branches_in_order {T : Type} (p : Props T) :
  (error' p = true ->
   LoadingComponent p
   = {| returned := nullish (errorComponent p) ErrorScreen; calls := [] |})
  /\ (error' p = false -> loading p = true ->
      LoadingComponent p
      = {| returned := nullish (loadingComponent p) LoadingScreen;
           calls := [] |})
  /\ (error' p = false -> loading p = false -> empty' p = true ->
      LoadingComponent p
      = {| returned := nullish (emptyComponent p) EmptyScreen;
           calls := [] |})
  /\ (error' p = false -> loading p = false -> empty' p = false ->
      LoadingComponent p
      = match children p, data p with
        | RenderProp f, Some d =>
            {| returned := Fragment (f d); calls := [d] |}
        | RenderProp _, None => {| returned := Fragment null; calls := [] |}
        | ChildNode n, _ => {| returned := Fragment n; calls := [] |}
        | NoChildren, _ => {| returned := Fragment null; calls := [] |}
        end)
  /\ (forall d, In d (calls (LoadingComponent p)) -> data p = Some d)
  /\ (data p = None -> calls (LoadingComponent p) = []).
Proof.
  unfold LoadingComponent.
  repeat split.
  - now intros ->.
  - now intros -> ->.
  - now intros -> -> ->.
  - intros -> -> ->. now destruct (children p), (data p).
  - intros d.
    destruct (error' p), (loading p), (empty' p), (children p), (data p);
      simpl; intros [<-|[]] || intros []; reflexivity.
  - intros ->.
    now destruct (error' p), (loading p), (empty' p), (children p).
Qed.

Lemma branches_in_order_witness :
  returned (LoadingComponent (Scenario.switcher true true true (Some 1%nat)))
  = ErrorScreen
  /\ returned (LoadingComponent
                 (Scenario.switcher true true false (Some 1%nat)))
     = LoadingScreen
  /\ returned (LoadingComponent
                 (Scenario.switcher false true false (Some 1%nat)))
     = EmptyScreen
  /\ LoadingComponent (Scenario.switcher false false false (Some 1%nat))
     = {| returned := Fragment (Custom "some"); calls := [1%nat] |}
  /\ LoadingComponent (Scenario.switcher false false false None)
     = {| returned := Fragment null; calls := [] |}.
Proof.
  split; [|split; [|split; [|split]]].
  - exact (f_equal returned
             (proj1 (branches_in_order
                       (Scenario.switcher true true true (Some 1%nat)))
                    eq_refl)).
  - exact (f_equal returned
             (proj1 (proj2 (branches_in_order
                              (Scenario.switcher true true false
                                                 (Some 1%nat))))
                    eq_refl eq_refl)).
  - exact (f_equal returned
             (proj1 (proj2 (proj2 (branches_in_order
                                     (Scenario.switcher false true false
                                                        (Some 1%nat)))))
                    eq_refl eq_refl eq_refl)).
  - exact (proj1 (proj2 (proj2 (proj2 (branches_in_order
                                         (Scenario.switcher false false false
                                                            (Some 1%nat))))))
                 eq_refl eq_refl eq_refl).
  - exact (proj1 (proj2 (proj2 (proj2 (branches_in_order
                                         (Scenario.switcher false false false
                                                            None)))))
                 eq_refl eq_refl eq_refl).
Defined.

End LoadingProofs.

(** ** ExpandableContent: notifications, toggles and the views *)

Module ContentBehaviour.

Import ExpandableContent.

(** *** Resize notifications *)

Lemma observe_overrides (o : Observer) (s1 s2 : State) (e : Entry) :
  internalExpanded s1 = internalExpanded s2 ->
  calculatedMaxHeight s1 = calculatedMaxHeight s2 ->
  observe o s1 e = observe o s2 e.
Proof. intros Hi Hc. unfold observe. now rewrite Hi, Hc. Qed.

Lemma onResize_bound (o : Observer) (entries : list Entry) (s : State) :
  calculatedMaxHeight (onResize o entries s) = calculatedMaxHeight s.
Proof.
  unfold onResize. revert s.
  induction entries as [|e es IH]; intro s; simpl; [reflexivity|].
  now rewrite IH.
Qed.

(** A notification leaves the state that its last entry alone would leave:
    earlier entries and the flags of the state before are forgotten, so
    observing the same entries again changes nothing and a later
    measurement replaces an earlier one. *)
Theorem last_entry_decides (o : Observer) (entries : list Entry)
        (e : Entry) (s : State) :
  onResize o (entries ++ [e]) s = observe o s e
  /\ onResize o (entries ++ [e]) (onResize o (entries ++ [e]) s)
     = onResize o (entries ++ [e]) s
  /\ forall e', onResize o [e'] (onResize o (entries ++ [e]) s)
                = observe o s e'.
Proof.
  assert (Hlast : forall s0, onResize o (entries ++ [e]) s0 = observe o s0 e).
  { intro s0. unfold onResize. rewrite fold_left_app. simpl.
    apply observe_overrides.
    - apply (ContentProofs.onResize_internal o entries s0).
    - apply (onResize_bound o entries s0). }
  split; [apply Hlast|]. split.
  - rewrite !Hlast. now apply observe_overrides.
  - intro e'. rewrite Hlast. unfold onResize. simpl.
    now apply observe_overrides.
Qed.

(** *** The toggle *)

(** Along every run of notifications and clicks, in every mode,
    [calculatedMaxHeight] keeps its value: only the effect writes it.  A
    click alone also keeps [needsExpansion] and [fullContentHeight]. *)
Theorem run_keeps_collapsed_bound {Host : Type} (p : Props Host)
        (o : Observer) (evs : list Event) (s : State) (w : Host) :
  calculatedMaxHeight (fst (run p o evs (s, w))) = calculatedMaxHeight s
  /\ needsExpansion (fst (handleToggle p s w)) = needsExpansion s
  /\ fullContentHeight (fst (handleToggle p s w)) = fullContentHeight s.
Proof.
  assert (Hclick : forall s0 w0,
             calculatedMaxHeight (fst (handleToggle p s0 w0))
             = calculatedMaxHeight s0
             /\ needsExpansion (fst (handleToggle p s0 w0))
                = needsExpansion s0
             /\ fullContentHeight (fst (handleToggle p s0 w0))
                = fullContentHeight s0).
  { intros s0 w0. unfold handleToggle.
    destruct (controlled' p), (onToggle p); simpl; auto. }
  split; [|apply Hclick].
  unfold run. revert s w.
  induction evs as [|ev evs IH]; intros s w; simpl; [reflexivity|].
  destruct ev as [entries|]; simpl.
  - rewrite IH. apply onResize_bound.
  - destruct (handleToggle p s w) as [s1 w1] eqn:Ht.
    rewrite IH. pose proof (proj1 (Hclick s w)) as Hc.
    now rewrite Ht in Hc.
Qed.

(** In the uncontrolled mode two toggles in a row give back the state and
    the host as they were, hence the same view; one toggle negates the
    displayed flag. *)
Theorem uncontrolled_toggle_twice {Host : Type} (p : Props Host)
        (s : State) (w : Host) :
  controlled' p = false ->
  let once := handleToggle p s w in
  let twice := handleToggle p (fst once) (snd once) in
  expanded p (fst once) = negb (expanded p s)
  /\ twice = (s, w)
  /\ forall theme ref,
      render p theme (fst twice) ref = render p theme s ref.
Proof.
  intros Hc once twice.
  assert (H2 : twice = (s, w)).
  { unfold twice, once, handleToggle, expanded. rewrite Hc. simpl.
    rewrite negb_involutive. now destruct s. }
  split; [|split; [exact H2|]].
  - unfold once, handleToggle, expanded. rewrite Hc. reflexivity.
  - intros theme ref. now rewrite H2.
Qed.

Lemma uncontrolled_toggle_twice_witness :
  let p := Scenario.threeLines in
  let s := measure p "lorem" (initialState p) (Scenario.entry 140 "lorem") in
  handleToggle p (fst (handleToggle p s tt)) (snd (handleToggle p s tt))
  = (s, tt).
Proof.
  exact (proj1 (proj2 (uncontrolled_toggle_twice
                         Scenario.threeLines
                         (measure Scenario.threeLines "lorem"
                                  (initialState Scenario.threeLines)
                                  (Scenario.entry 140 "lorem"))
                         tt eq_refl))).
Defined.

(** *** The resolved bound *)

(** With a positive [maxHeight] and a positive [lineHeight] the resolved
    collapsed bound is positive for every [maxLines] that is not negative:
    [maxLines = 0] is falsy and falls back to [maxHeight] instead of
    giving a bound of [0]. *)
Theorem resolved_bound_positive {Host : Type} (p : Props Host) :
  0 < maxHeight' p ->
  0 < lineHeight' p ->
  (forall m, maxLines p = Some m -> 0 <= m) ->
  0 < resolveCollapsedHeight p.
Proof.
  intros Hh Hl Hm. unfold resolveCollapsedHeight.
  destruct (maxLines p) as [m|]; simpl; [|exact Hh].
  specialize (Hm m eq_refl).
  destruct (Z.eqb_spec m 0); simpl; [exact Hh|].
  apply JSFacts.toDouble_pos. nia.
Qed.

Lemma resolved_bound_positive_witness :
  0 < resolveCollapsedHeight
        (Scenario.props (Host := unit) (Element "lorem") None (Some 0)
                        (Some 24) None None None None).
Proof.
  apply resolved_bound_positive; try reflexivity.
  intros m Hm. injection Hm as <-. discriminate.
Defined.

(** *** The direct view and the effect *)

(** In the state a fitting measurement leaves (no active character bound,
    a positive height within the bound) the component returns the children
    without the element that carries [contentRef].  In that state a render
    under any other props returns the children directly as well, and the
    effect of those props finds no element: it installs no observer and
    writes no state, so new props alone neither bring the constrained
    region back nor measure again.  The state itself is not final: the
    observer installed before still decides on what it is notified of, and
    an entry of height [0] brings the constrained region back. *)
Theorem direct_view_has_no_element {Host : Type} (p q : Props Host)
        (theme dom : string) (ref : option string) (s : State) (e : Entry) :
  JS.truthy (maxCharacters p) = false ->
  0 < scrollHeight e ->
  scrollHeight e <= resolveCollapsedHeight p ->
  let s' := measure p dom s e in
  let installed := {| collapsedHeight := resolveCollapsedHeight p;
                      observedMaxCharacters := maxCharacters p |} in
  committedText (render p theme s' ref) = None
  /\ render q theme s' None = Direct (children q)
  /\ effect q (committedText (render q theme s' None)) s' = (s', None)
  /\ snd (effect p (Some dom) s) = Some installed
  /\ forall e0,
      scrollHeight e0 = 0 ->
      0 <= resolveCollapsedHeight p ->
      constraintOf (render p theme (onResize installed [e0] s') ref)
      = Some (if expanded p s then 0 else resolveCollapsedHeight p).
Proof.
  intros Hc H0 Hle s' installed.
  assert (Hn : needsExpansion s' = false).
  { unfold s'. rewrite ContentProofs.measure_by_height by assumption.
    apply Z.ltb_ge. assumption. }
  assert (Hh : 0 < fullContentHeight s')
    by (unfold s'; now rewrite ContentProofs.measure_height).
  assert (Hd : forall (r : Props Host) x,
             render r theme s' x = Direct (children r)).
  { intros r x. now apply ContentProofs.render_direct. }
  rewrite !Hd. simpl. repeat split.
  intros e0 He0 Hb.
  unfold render, onResize, observe, installed, expanded. simpl.
  rewrite Hc, He0. simpl.
  destruct (Z.ltb_spec (resolveCollapsedHeight p) 0); [lia|]. simpl.
  reflexivity.
Qed.

Lemma direct_view_has_no_element_witness :
  let p := Scenario.hundredPixels in
  let q := Scenario.props (Host := unit) (Element "lorem") (Some 40) None
                          None None None None None in
  let s' := measure p "lorem" (initialState p) (Scenario.entry 80 "lorem") in
  resolveCollapsedHeight q < fullContentHeight s'
  /\ render q "#fff" s' None = Direct (Element "lorem")
  /\ effect q (committedText (render q "#fff" s' None)) s' = (s', None).
Proof.
  assert (Hle : 80 <= 100) by (intro Hgt; discriminate Hgt).
  pose proof (direct_view_has_no_element
                Scenario.hundredPixels
                (Scenario.props (Element "lorem") (Some 40) None None None
                                None None None)
                "#fff" "lorem" None (initialState Scenario.hundredPixels)
                (Scenario.entry 80 "lorem") eq_refl eq_refl Hle)
    as (_ & Hr & He & _).
  split; [reflexivity|]. split; [exact Hr | exact He].
Defined.

(** *** The views *)

(** A controlled instance that starts expanded is rendered, until its first
    measurement, in a region of maximum height [0]: [fullContentHeight] is
    still [0] and the expanded branch reads it.  Neither the overlay nor
    the toggle is rendered. *)
Theorem controlled_expanded_first_render {Host : Type} (p : Props Host)
        (theme : string) :
  controlled p = Some true ->
  controlledExpanded p = Some true ->
  constraintOf (render p theme (initialState p) None) = Some 0
  /\ overlayOf (render p theme (initialState p) None) = None
  /\ toggleOf (render p theme (initialState p) None) = None.
Proof.
  intros Hc He. unfold render, expanded, controlled'.
  rewrite Hc, He. simpl. rewrite andb_false_r. repeat split.
Qed.

Lemma controlled_expanded_first_render_witness :
  constraintOf (render (Scenario.controlledBy true) "#fff"
                       (initialState (Scenario.controlledBy true)) None)
  = Some 0.
Proof.
  exact (proj1 (controlled_expanded_first_render
                  (Scenario.controlledBy true) "#fff" eq_refl eq_refl)).
Defined.

(** The gradient overlay is never rendered while the content is expanded
    nor when [showGradient] is off, and its colour is the [gradientColor]
    prop when that is a non-empty string and the background of the theme
    otherwise. *)
Theorem overlay_only_while_collapsed {Host : Type} (p : Props Host)
        (theme : string) (s : State) (ref : option string) :
  (overlayOf (render p theme s ref) <> None ->
   expanded p s = false /\ showGradient' p = true)
  /\ forall colour,
      overlayOf (render p theme s ref) = Some colour ->
      (gradientColor Host p = Some colour /\ colour <> "")
      \/ (colour = theme
          /\ (gradientColor Host p = None \/ gradientColor Host p = Some "")).
Proof.
  assert (Hcol : forall colour,
             defaultGradient p theme = colour ->
             (gradientColor Host p = Some colour /\ colour <> "")
             \/ (colour = theme
                 /\ (gradientColor Host p = None \/ gradientColor Host p = Some ""))).
  { intros colour <-. unfold defaultGradient.
    destruct (gradientColor Host p) as [g|]; simpl; [|right; auto].
    destruct (String.eqb_spec g ""); simpl.
    - subst g. right. auto.
    - left. auto. }
  unfold render.
  destruct (negb (needsExpansion s) && (0 <? fullContentHeight s)); simpl.
  - split; [intro H; now elim H|discriminate].
  - destruct (showGradient' p), (expanded p s); simpl;
      (split; [intro H; try (now elim H); auto|]);
      intros colour Hs; try discriminate.
    injection Hs as Hs. now apply Hcol.
Qed.

(** The toggle button is rendered exactly when [needsExpansion] is set; its
    label is [collapseText] while expanded and [expandText] while
    collapsed. *)
Theorem toggle_exactly_when_needed {Host : Type} (p : Props Host)
        (theme : string) (s : State) (ref : option string) :
  (toggleOf (render p theme s ref) <> None <-> needsExpansion s = true)
  /\ forall b,
      toggleOf (render p theme s ref) = Some b ->
      label b = if expanded p s then collapseText' p else expandText' p.
Proof.
  rewrite ContentProofs.render_toggle.
  destruct (needsExpansion s); split.
  - split; [reflexivity|discriminate].
  - intros b Hb. injection Hb as <-. reflexivity.
  - split; [intro H; now elim H|discriminate].
  - discriminate.
Qed.

Lemma overlay_only_while_collapsed_witness :
  expanded Scenario.hundredPixels (initialState Scenario.hundredPixels)
  = false
  /\ showGradient' Scenario.hundredPixels = true.
Proof.
  apply (proj1 (overlay_only_while_collapsed
                  Scenario.hundredPixels "#fff"
                  (initialState Scenario.hundredPixels) None)).
  discriminate.
Defined.

Lemma toggle_exactly_when_needed_witness :
  let p := Scenario.threeLines in
  let s := measure p "lorem" (initialState p) (Scenario.entry 140 "lorem") in
  toggleOf (render p "#fff" s (Some "lorem")) <> None.
Proof.
  apply (proj2 (proj1 (toggle_exactly_when_needed
                         Scenario.threeLines "#fff"
                         (measure Scenario.threeLines "lorem"
                                  (initialState Scenario.threeLines)
                                  (Scenario.entry 140 "lorem"))
                         (Some "lorem")))).
  reflexivity.
Defined.

(** *** The character bound at its edges *)

(** On the first render, when no element is mounted yet, children that are
    not a string are shown whole under every positive character bound:
    the text is read from [contentRef], which is still empty.  A string
    child longer than the bound is truncated from the first render on,
    whatever [contentRef] holds. *)
Theorem first_render_truncates_strings_only {Host : Type} (p : Props Host)
        (c : Z) (s : State) :
  maxCharacters p = Some c ->
  0 < c ->
  (forall x, children p = Element x ->
             getTruncatedContent p s None = children p)
  /\ (forall x ref, children p = Text x ->
                    c < JS.length x ->
                    expanded p s = false ->
                    getTruncatedContent p s ref
                    = Text (JS.take (Z.to_nat c) x ++ "...")).
Proof.
  intros Hb Hc.
  assert (Ht : JS.truthy (maxCharacters p) = true)
    by (eapply ContentProofs.bound_active; eauto).
  unfold getTruncatedContent. rewrite Ht, Hb. simpl. split.
  - intros x Hx. rewrite Hx. simpl.
    destruct (expanded p s); [reflexivity|].
    destruct (Z.leb_spec (JS.length "") c) as [_|Hgt]; [reflexivity|].
    unfold JS.length in Hgt. simpl in Hgt. lia.
  - intros x ref Hx Hlen He. rewrite Hx, He.
    destruct (Z.leb_spec (JS.length x) c); [lia|].
    now rewrite JSFacts.slice0_take by lia.
Qed.

Lemma first_render_truncates_strings_only_witness :
  getTruncatedContent
    (Scenario.props (Host := unit) (Element "hello world") None None None
                    (Some 5) None None None)
    (initialState (Scenario.props (Host := unit) (Element "hello world")
                                  None None None (Some 5) None None None))
    None
  = Element "hello world"
  /\ getTruncatedContent (Scenario.characters 5 "hello world")
                         (initialState
                            (Scenario.characters 5 "hello world"))
                         None
     = Text "hello...".
Proof.
  split.
  - exact (proj1 (first_render_truncates_strings_only
                    (Scenario.props (Host := unit) (Element "hello world")
                                    None None None (Some 5) None None None)
                    5 (initialState _) eq_refl eq_refl)
                 "hello world" eq_refl).
  - exact (proj2 (first_render_truncates_strings_only
                    (Scenario.characters 5 "hello world")
                    5 (initialState _) eq_refl eq_refl)
                 "hello world" None eq_refl eq_refl eq_refl).
Defined.

(** A negative character bound is truthy and below every length: each
    measurement sets [needsExpansion], and the collapsed view of a string
    child drops its last [-c] characters (all of them when it is shorter)
    and appends ["..."]. *)
Theorem negative_character_bound {Host : Type} (p : Props Host) (c : Z)
        (x dom : string) (ref : option string) (s : State) (e : Entry) :
  maxCharacters p = Some c ->
  c < 0 ->
  children p = Text x ->
  needsExpansion (measure p dom s e) = true
  /\ (expanded p s = false ->
      getTruncatedContent p s ref
      = Text (JS.take (Z.to_nat (JS.length x + c)) x ++ "...")).
Proof.
  intros Hb Hc Hx.
  assert (Ht : JS.truthy (maxCharacters p) = true).
  { rewrite Hb. simpl. destruct (Z.eqb_spec c 0); [lia|reflexivity]. }
  split.
  - rewrite ContentProofs.measure_by_characters by assumption.
    rewrite Hb. simpl. apply Z.ltb_lt.
    pose proof (JSFacts.length_nonneg (textContent e)). lia.
  - intro He. unfold getTruncatedContent. rewrite Ht, He, Hb, Hx. simpl.
    pose proof (JSFacts.length_nonneg x) as Hlen.
    destruct (Z.leb_spec (JS.length x) c); [lia|].
    unfold JS.slice0. destruct (Z.ltb_spec c 0); [|lia].
    destruct (Z.max_spec (JS.length x + c) 0) as [[Hlt ->]|[Hge ->]].
    + now replace (Z.to_nat (JS.length x + c)) with 0%nat by lia.
    + reflexivity.
Qed.

Lemma negative_character_bound_witness :
  getTruncatedContent (Scenario.characters (-2) "abcdefgh")
                      (initialState (Scenario.characters (-2) "abcdefgh"))
                      None
  = Text "abcdef...".
Proof.
  exact (proj2 (negative_character_bound
                  (Scenario.characters (-2) "abcdefgh") (-2) "abcdefgh" ""
                  None (initialState _) (Scenario.entry 20 "abcdefgh")
                  eq_refl eq_refl eq_refl)
               eq_refl).
Defined.

(** Under a positive character bound the text under [contentRef] is, after
    any sequence of renders from the first one on and in whatever states,
    the text of the children or its truncation to the bound; nothing else
    is ever mounted. *)
Theorem mounted_text_invariant {Host : Type} (p : Props Host) (c : Z)
        (theme : string) (states : list State) (d : string) :
  maxCharacters p = Some c ->
  0 < c ->
  fold_left (fun ref s => committedText (render p theme s ref)) states None
  = Some d ->
  mountedText p d.
Proof.
  intros Hb Hc.
  assert (Hgen : forall ref,
             (forall x, ref = Some x -> mountedText p x) ->
             fold_left (fun r s => committedText (render p theme s r))
                       states ref = Some d ->
             mountedText p d).
  { induction states as [|s ss IH]; intros ref Href; simpl.
    - apply Href.
    - apply IH. intros x Hx.
      exact (ContentProofs.committed_text_mounted p c Hb Hc theme s ref x
                                                  Href Hx). }
  apply Hgen. discriminate.
Qed.

Lemma mounted_text_invariant_witness :
  mountedText (Scenario.characters 5 "hello world") "hello...".
Proof.
  exact (mounted_text_invariant
           (Scenario.characters 5 "hello world") 5 "#fff"
           [initialState (Scenario.characters 5 "hello world");
            measure (Scenario.characters 5 "hello world") "hello..."
                    (initialState (Scenario.characters 5 "hello world"))
                    (Scenario.entry 20 "hello...")]
           "hello..." eq_refl eq_refl eq_refl).
Defined.

(** *** The controlled instance of the example *)

(** In the example a click on the toggle of the controlled instance does
    what the external button does: it sets [controlled1] to its negation
    and leaves the state of the component alone.  The instance rendered
    with the new [controlled1] displays that value, its button carries the
    labels of the example on the right, and two clicks give back the
    [controlled1] before. *)
Theorem example_toggle_is_external_toggle (text theme : string)
        (controlled1 : bool) (s : State) (ref : option string) :
  let instance := ExpandableContentExample.controlledInstance text in
  handleToggle (instance controlled1) s controlled1
  = (s, ExpandableContentExample.externalToggle controlled1)
  /\ expanded (instance (ExpandableContentExample.externalToggle controlled1))
              s
     = negb controlled1
  /\ snd (handleToggle (instance (negb controlled1)) s (negb controlled1))
     = controlled1
  /\ toggleOf (render (instance controlled1) theme s ref)
     = if needsExpansion s
       then Some {| label := if controlled1 then "Collapse Content"
                             else "Expand Content";
                    positionClass := "text-right" |}
       else None.
Proof.
  simpl. repeat split.
  - now destruct controlled1.
  - rewrite ContentProofs.render_toggle. now destruct controlled1.
Qed.

End ContentBehaviour.

(** ** ExpandableText: the truncated text *)

Module TextBehaviour.

Import ExpandableText.

(** *** Splitting and joining *)

Lemma append_assoc (a b c : string) : (a ++ b) ++ c = a ++ (b ++ c).
Proof.
  induction a as [|x a IH]; simpl; [reflexivity|]. now rewrite IH.
Qed.

Lemma join_cons (sep w : string) (ws : list string) :
  ws <> [] -> JS.join sep (w :: ws) = w ++ sep ++ JS.join sep ws.
Proof. destruct ws; [congruence|reflexivity]. Qed.

(** Joining the pieces of a split with the separator gives the string
    back. *)
Lemma join_split (c : ascii) (s : string) :
  JS.join (String c EmptyString) (JS.split c s) = s.
Proof.
  induction s as [|x s IH]; simpl; [reflexivity|].
  destruct (Ascii.eqb_spec x c) as [->|Hne].
  - rewrite join_cons by apply JSFacts.split_nonempty.
    simpl. now rewrite IH.
  - destruct (JS.split c s) as [|w ws] eqn:Hs.
    + now elim (JSFacts.split_nonempty c s).
    + destruct ws as [|w' ws]; simpl in *; now rewrite <- IH.
Qed.

Lemma join_app (sep : string) (a b : list string) :
  a <> [] -> b <> [] ->
  JS.join sep (a ++ b) = JS.join sep a ++ sep ++ JS.join sep b.
Proof.
  intros Ha Hb. induction a as [|w a IH]; [congruence|].
  destruct a as [|w' a].
  - simpl app. now rewrite join_cons.
  - change ((w :: w' :: a) ++ b)%list with (w :: ((w' :: a) ++ b))%list.
    rewrite join_cons by discriminate.
    rewrite IH by discriminate.
    rewrite (join_cons sep w (w' :: a)) by discriminate.
    now rewrite !append_assoc.
Qed.

Lemma spaces_app (a b : string) :
  spaces (a ++ b) = (spaces a + spaces b)%nat.
Proof.
  induction a as [|x a IH]; simpl; [reflexivity|].
  destruct (Ascii.eqb x JS.space); simpl; now rewrite IH.
Qed.

(** No piece of [text.split(" ")] holds a space. *)
Lemma split_pieces_spaceless (s : string) :
  Forall (fun w => spaces w = 0%nat) (JS.split JS.space s).
Proof.
  induction s as [|x s IH]; simpl.
  - constructor; [reflexivity|constructor].
  - destruct (Ascii.eqb x JS.space) eqn:Hx.
    + constructor; [reflexivity|exact IH].
    + destruct (JS.split JS.space s) as [|w ws];
        [constructor; [simpl; now rewrite Hx|constructor]|].
      inversion IH as [|? ? Hw Hws]; subst.
      constructor; [simpl; now rewrite Hx|exact Hws].
Qed.

Lemma spaces_join (ws : list string) :
  ws <> [] ->
  Forall (fun w => spaces w = 0%nat) ws ->
  S (spaces (JS.join " " ws)) = List.length ws.
Proof.
  intros Hne Hall. induction ws as [|w ws IH]; [congruence|].
  inversion Hall as [|? ? Hw Hws]; subst.
  destruct ws as [|w' ws].
  - simpl. now rewrite Hw.
  - rewrite join_cons by discriminate.
    rewrite !spaces_app, Hw. simpl spaces at 1.
    change (List.length (w :: w' :: ws)) with (S (List.length (w' :: ws))).
    rewrite <- IH by (discriminate || assumption). simpl. lia.
Qed.

Lemma Forall_firstn_spaceless (n : nat) (ws : list string) :
  Forall (fun w => spaces w = 0%nat) ws ->
  Forall (fun w => spaces w = 0%nat) (firstn n ws).
Proof.
  intro H. revert n. induction H as [|w ws Hw Hws IH]; intros [|n]; simpl;
    constructor; auto.
Qed.

(** *** Truncation by characters *)

(** Without an active word bound, a text longer than a character bound
    that is not negative is cut to its first [maxCharacters] characters
    followed by ["..."]: the result is [maxCharacters + 3] long, so for a
    text less than three characters over the bound it is longer than the
    text itself. *)
Theorem character_truncation_length (p : Props) :
  JS.truthy (maxWords p) = false ->
  0 <= maxCharacters' p ->
  maxCharacters' p < JS.length (text p) ->
  getTruncatedText p
  = JS.take (Z.to_nat (maxCharacters' p)) (text p) ++ "..."
  /\ JS.length (getTruncatedText p) = maxCharacters' p + 3
  /\ (JS.length (text p) < maxCharacters' p + 3 ->
      JS.length (text p) < JS.length (getTruncatedText p)).
Proof.
  intros Hw H0 Hlt.
  assert (Hg : getTruncatedText p
               = JS.take (Z.to_nat (maxCharacters' p)) (text p) ++ "...").
  { unfold getTruncatedText. rewrite Hw.
    destruct (Z.ltb_spec (maxCharacters' p) (JS.length (text p))); [|lia].
    now rewrite JSFacts.slice0_take by assumption. }
  assert (Hl : JS.length (getTruncatedText p) = maxCharacters' p + 3).
  { rewrite Hg. unfold JS.length in *.
    rewrite JSFacts.length_app, JSFacts.take_length. simpl. lia. }
  split; [exact Hg|]. split; [exact Hl|]. intro. lia.
Qed.

Lemma character_truncation_length_witness :
  getTruncatedText {| text := "abcdef"; maxCharacters := Some 5;
                      maxWords := None; expandText := None;
                      collapseText := None |}
  = "abcde..."
  /\ JS.length "abcdef"
     < JS.length (getTruncatedText
                    {| text := "abcdef"; maxCharacters := Some 5;
                       maxWords := None; expandText := None;
                       collapseText := None |}).
Proof.
  assert (H0 : 0 <= 5) by (intro Hgt; discriminate Hgt).
  pose proof (character_truncation_length
                {| text := "abcdef"; maxCharacters := Some 5;
                   maxWords := None; expandText := None;
                   collapseText := None |} eq_refl H0 eq_refl)
    as (Hg & _ & Hlonger).
  split; [exact Hg | exact (Hlonger eq_refl)].
Defined.

(** *** Truncation by words *)

(** Under a positive word bound [m] that the text exceeds, the truncated
    text is a prefix of the text followed by ["..."]; the prefix holds
    exactly [m - 1] spaces, that is [m] pieces, and in the text it is
    followed by a space: the cut falls on a separator. *)
Theorem word_truncation_cuts_at_space (p : Props) (m : Z) :
  maxWords p = Some m ->
  0 < m ->
  m < Z.of_nat (List.length (JS.split JS.space (text p))) ->
  exists kept rest : string,
    getTruncatedText p = kept ++ "..."
    /\ text p = kept ++ " " ++ rest
    /\ Z.of_nat (spaces kept) = m - 1.
Proof.
  intros Hm H0 Hlt.
  set (words := JS.split JS.space (text p)) in *.
  set (n := Z.to_nat m).
  assert (Hn : (0 < n < List.length words)%nat) by lia.
  assert (Hslice : JS.slice0_list words m = firstn n words).
  { unfold JS.slice0_list. destruct (Z.ltb_spec m 0); [lia|].
    now rewrite Z.min_l by lia. }
  assert (Hkept : firstn n words <> []).
  { intro H. apply (f_equal (@List.length string)) in H.
    rewrite length_firstn in H. simpl in H. lia. }
  assert (Hrest : skipn n words <> []).
  { intro H. apply skipn_all_iff in H. lia. }
  exists (JS.join " " (firstn n words)), (JS.join " " (skipn n words)).
  split; [|split].
  - unfold getTruncatedText. rewrite Hm. simpl.
    destruct (Z.eqb_spec m 0); [lia|]. simpl. fold words.
    destruct (Z.ltb_spec m (Z.of_nat (List.length words))); [|lia].
    now rewrite Hslice.
  - rewrite <- join_app by assumption.
    rewrite firstn_skipn. unfold words.
    symmetry. apply (join_split JS.space).
  - pose proof (spaces_join (firstn n words) Hkept
                            (Forall_firstn_spaceless n words
                               (split_pieces_spaceless (text p)))) as Hs.
    rewrite length_firstn in Hs. lia.
Qed.

Lemma word_truncation_cuts_at_space_witness :
  exists kept rest : string,
    getTruncatedText {| text := "one two  three"; maxCharacters := None;
                        maxWords := Some 2; expandText := None;
                        collapseText := None |}
    = kept ++ "..."
    /\ "one two  three" = kept ++ " " ++ rest
    /\ Z.of_nat (spaces kept) = 2 - 1.
Proof.
  exact (word_truncation_cuts_at_space
           {| text := "one two  three"; maxCharacters := None;
              maxWords := Some 2; expandText := None;
              collapseText := None |} 2 eq_refl eq_refl eq_refl).
Defined.

(** *** The decision and the truncated text *)

(** [needsTruncation] and [getTruncatedText] test the same conditions:
    when no truncation is needed the truncated text is the text itself,
    and when it is needed the truncated text ends with ["..."], so the
    collapsed view shows the suffix exactly when the toggle is there. *)
Theorem truncated_text_follows_decision (p : Props) :
  (needsTruncation p = false -> getTruncatedText p = text p)
  /\ (needsTruncation p = true ->
      exists kept, getTruncatedText p = kept ++ "...")
  /\ (needsTruncation p = true ->
      render p false = WithToggle (getTruncatedText p) (expandText' p)
      /\ render p true = WithToggle (text p) (collapseText' p)).
Proof.
  split; [|split].
  - unfold needsTruncation, getTruncatedText.
    destruct (JS.truthy (maxWords p)); intros ->; reflexivity.
  - unfold needsTruncation, getTruncatedText.
    destruct (JS.truthy (maxWords p)); intros ->; eauto.
  - intro H. unfold render. now rewrite H.
Qed.

Lemma truncated_text_follows_decision_witness :
  getTruncatedText {| text := "short"; maxCharacters := None;
                      maxWords := None; expandText := None;
                      collapseText := None |}
  = "short".
Proof.
  exact (proj1 (truncated_text_follows_decision
                  {| text := "short"; maxCharacters := None;
                     maxWords := None; expandText := None;
                     collapseText := None |}) eq_refl).
Defined.

End TextBehaviour.

(** ** LoadingComponent: what the state branches ignore *)

Module LoadingBehaviour.

Import LoadingComponent.

Lemma nullish_not_null (a : option Node) (b : Node) :
  b <> null -> nullish a b <> null.
Proof.
  intro Hb. destruct a as [[]|]; simpl; try assumption; discriminate.
Qed.

(** When [error], [loading] or [empty] is set the component returns a
    screen that is never [null] (a custom screen given as [null] gives way
    to the built-in one), calls nothing, and returns the same whatever
    [data] and [children] are. *)
Theorem state_screens_ignore_content {T : Type} (p : Props T) :
  error' p = true \/ loading p = true \/ empty' p = true ->
  returned (LoadingComponent p) <> null
  /\ calls (LoadingComponent p) = []
  /\ forall (data' : option T) (children' : Children T),
      LoadingComponent {| loading := loading p;
                          empty := empty p;
                          error := error p;
                          data := data';
                          loadingComponent := loadingComponent p;
                          emptyComponent := emptyComponent p;
                          errorComponent := errorComponent p;
                          children := children' |}
      = LoadingComponent p.
Proof.
  intro H. unfold LoadingComponent, error', empty' in *. simpl.
  destruct (JS.dflt false (error p)); simpl.
  { repeat split. apply nullish_not_null. discriminate. }
  destruct (loading p); simpl.
  { repeat split. apply nullish_not_null. discriminate. }
  destruct (JS.dflt false (empty p)); simpl.
  { repeat split. apply nullish_not_null. discriminate. }
  destruct H as [H|[H|H]]; discriminate H.
Qed.

Lemma state_screens_ignore_content_witness :
  calls (LoadingComponent (Scenario.switcher true false false (Some 1%nat)))
  = [].
Proof.
  exact (proj1 (proj2 (state_screens_ignore_content
                         (Scenario.switcher true false false (Some 1%nat))
                         (or_intror (or_introl eq_refl))))).
Defined.

(** The function child is called once, with [d], exactly when none of
    [error], [loading] and [empty] is set, [children] is a function and
    [data] is [d]; it is never called more than once. *)
Theorem render_prop_called_once {T : Type} (p : Props T) (d : T) :
  (calls (LoadingComponent p) = [d]
   <-> error' p = false /\ loading p = false /\ empty' p = false
       /\ (exists f, children p = RenderProp f) /\ data p = Some d)
  /\ (List.length (calls (LoadingComponent p)) <= 1)%nat.
Proof.
  unfold LoadingComponent.
  destruct (error' p), (loading p), (empty' p); simpl;
    try (split; [split; [discriminate|intros (?&?&?&_); discriminate]|lia]).
  destruct (children p) as [|f|n], (data p) as [x|]; simpl;
    (split; [split|lia]);
    try discriminate;
    try (intros (_ & _ & _ & [g Hg] & Hd); discriminate).
  - intro H. injection H as ->. repeat split. now exists f.
  - intros (_ & _ & _ & _ & Hd). now injection Hd as ->.
Qed.

Lemma render_prop_called_once_witness :
  calls (LoadingComponent
           (Scenario.switcher false false false (Some 1%nat)))
  = [1%nat].
Proof.
  apply (proj2 (proj1 (render_prop_called_once
                         (Scenario.switcher false false false (Some 1%nat))
                         1%nat))).
  repeat split. eexists. reflexivity.
Defined.

End LoadingBehaviour.
